(** * HeishaMon zone climate entity (custom_components/aquarea/climate.py)

    A shallow embedding of the zone climate entity and of the two flag
    enumerations it reconciles, followed by the properties of the
    reconciliation logic. *)

From Stdlib Require Import ZArith String Ascii List Bool Lia DecimalString.
Import ListNotations.

Local Open Scope string_scope.
Local Open Scope Z_scope.

(** ** Python values *)

(** Exceptions the module can raise.  [TransportError] is what
    [async_publish] raises when the message cannot be handed to the MQTT
    client. *)
Inductive exn : Type :=
| KeyError
| ValueError
| AssertionError
| TypeError
| Exception (msg : string)
| TransportError.

(** The result of evaluating a Python expression or call. *)
Inductive outcome (A : Type) : Type :=
| Returns (a : A)
| Raises (e : exn).

Arguments Returns {A} a.
Arguments Raises {A} e.

(** What the interpreter's [int(s)] gives for text the model does not
    compute itself: text with a character outside ASCII, where the answer
    depends on the interpreter's Unicode tables (decimal digits of other
    scripts and Unicode white space are accepted), and text longer than 640
    characters, where the interpreter's limit on the digits of an integer
    may apply.  [None] stands for the [ValueError] that [int] raises. *)
Class PyInt : Type := {
  int_other : string -> option Z
}.

Module Py.

(** [str(n)] for an [int]. *)
Definition str (n : Z) : string := NilZero.string_of_int (Z.to_int n).

(** [str(x)] where [x] is an [int] or [None]. *)
Definition str_opt (x : option Z) : string :=
  match x with
  | Some n => str n
  | None => "None"
  end.

Definition is_space (c : ascii) : bool :=
  let n := Z.of_N (N_of_ascii c) in
  ((9 <=? n) && (n <=? 13)) || (n =? 32).

Fixpoint lstrip (s : string) : string :=
  match s with
  | String c s' => if is_space c then lstrip s' else s
  | EmptyString => EmptyString
  end.

Fixpoint rev_append (s acc : string) : string :=
  match s with
  | String c s' => rev_append s' (String c acc)
  | EmptyString => acc
  end.

Definition strip (s : string) : string :=
  rev_append (lstrip (rev_append (lstrip s) EmptyString)) EmptyString.

Definition digit_of (c : ascii) : option Z :=
  let n := Z.of_N (N_of_ascii c) in
  if (48 <=? n) && (n <=? 57) then Some (n - 48) else None.

(** Decimal digits, a single underscore being allowed between two digits. *)
Fixpoint digits (acc : Z) (after_digit : bool) (s : string) : option Z :=
  match s with
  | EmptyString => if after_digit then Some acc else None
  | String c s' =>
      if Ascii.eqb c "_"%char
      then if after_digit then digits acc false s' else None
      else match digit_of c with
           | Some d => digits (10 * acc + d) true s'
           | None => None
           end
  end.

(** The decimal grammar of [int(s)] on ASCII text: surrounding white
    space, an optional sign, then decimal digits. *)
Definition int_ascii (s : string) : option Z :=
  match strip s with
  | String "-"%char s' => option_map Z.opp (digits 0 false s')
  | String "+"%char s' => digits 0 false s'
  | s' => digits 0 false s'
  end.

Fixpoint is_ascii (s : string) : bool :=
  match s with
  | EmptyString => true
  | String c s' => (Z.of_N (N_of_ascii c) <? 128) && is_ascii s'
  end.

(** Text on which [int(s)] is the decimal grammar whatever the
    interpreter: ASCII only, and at most 640 characters. *)
Definition is_plain (s : string) : bool :=
  is_ascii s && (Nat.leb (String.length s) 640).

(** [int(s)] for a [str]: computed on plain text, and what the
    interpreter says on any other text. *)
Definition int {I : PyInt} (s : string) : outcome Z :=
  match (if is_plain s then int_ascii s else int_other s) with
  | Some n => Returns n
  | None => Raises ValueError
  end.

(** Subscription of a dict literal, written as the list of its items. *)
Fixpoint getitem {V : Type} (d : list (Z * V)) (key : Z) : outcome V :=
  match d with
  | [] => Raises KeyError
  | (k, v) :: d' => if key =? k then Returns v else getitem d' key
  end.

End Py.

(** ** [enum.Flag] values

    A flag value is the integer of its members' bits. *)
Module Flag.

(** [a | b] *)
Definition or (a b : Z) : Z := Z.lor a b.

(** [a & b] *)
Definition and (a b : Z) : Z := Z.land a b.

(** [~a], the members of the enumeration that are not in [a]; [all] is
    the union of the enumeration's members. *)
Definition invert (all a : Z) : Z := Z.land all (Z.lnot a).

(** [other in self] *)
Definition contains (other self : Z) : bool := Z.land other self =? other.

End Flag.

(** ** [ZoneState] *)
Module ZoneState.

Definition ZONE1 : Z := 1.
Definition ZONE2 : Z := 2.

Definition all : Z := Flag.or ZONE1 ZONE2.

(** [ZoneState(0)] *)
Definition none : Z := 0.

(** The values a [ZoneState] object can have. *)
Definition valid (zs : Z) : Prop := 0 <= zs <= 3.

Definition from_id (id : Z) : outcome Z :=
  if id =? 1 then Returns ZONE1
  else if id =? 2 then Returns ZONE2
  else Raises (Exception ("No zone with id " ++ Py.str id)).

Definition to_mqtt (self : Z) : outcome string :=
  match Py.getitem [(ZONE1, 0); (ZONE2, 1); (Flag.or ZONE1 ZONE2, 2)] self with
  | Returns n => Returns (Py.str n)
  | Raises e => Raises e
  end.

Definition from_mqtt {I : PyInt} (value : string) : outcome Z :=
  match Py.int value with
  | Returns n =>
      Py.getitem [(0, ZONE1); (1, ZONE2); (2, Flag.or ZONE1 ZONE2)] n
  | Raises e => Raises e
  end.

End ZoneState.

(** ** Home Assistant's [HVACMode] and the entity's [ZoneClimateMode] *)
Module HVACMode.
Inductive t : Type := OFF | HEAT | COOL | HEAT_COOL | AUTO | DRY | FAN_ONLY.

Definition eqb (a b : t) : bool :=
  match a, b with
  | OFF, OFF | HEAT, HEAT | COOL, COOL | HEAT_COOL, HEAT_COOL
  | AUTO, AUTO | DRY, DRY | FAN_ONLY, FAN_ONLY => true
  | _, _ => false
  end.
End HVACMode.

Module ZoneClimateMode.
Inductive t : Type := COMPENSATION | DIRECT.

Definition eqb (a b : t) : bool :=
  match a, b with
  | COMPENSATION, COMPENSATION | DIRECT, DIRECT => true
  | _, _ => false
  end.
End ZoneClimateMode.

(** ** MQTT messages *)

(** A received message. *)
Record message : Type := {
  topic : string;
  payload : string
}.

(** The arguments of one [async_publish] call. *)
Record publication : Type := {
  pub_topic : string;
  pub_payload : string;
  pub_qos : Z;
  pub_retain : bool
}.

(** ** The parts of the program that live elsewhere *)

(** Modelled from the spec: [OperatingMode] is imported from
    [definitions.py], which is not part of the sources at hand.  The spec
    describes it as a flag set over a fixed enumeration of global modes
    containing at least Heat, with an encoder and a decoder for its wire
    value.  The enumeration is taken as a parameter: the [HEAT] member, the
    union of all members (which [~] complements against), and the two
    codec functions, either of which may raise. *)
Class OperatingModeEnum : Type := {
  OperatingMode_HEAT : Z;
  OperatingMode_all : Z;
  OperatingMode_to_mqtt : Z -> outcome string;
  OperatingMode_from_mqtt : string -> outcome Z
}.

(** Python floats and [float(s)] for a [str]; the entity only stores
    them. *)
Class PyFloat : Type := {
  pyfloat : Type;
  float : string -> outcome pyfloat
}.

(** Modelled from the spec: the codec of [OperatingMode] ([to_mqtt] and
    [from_mqtt] of [definitions.py], not part of the sources at hand).  The
    spec gives it "the analogous contract" to [ZoneState]'s: decoding
    fails when the value is outside the known map, and the map is the
    enumeration's own.  The codec is therefore two subscriptions of one
    wire map, listed as pairs (wire value, flag value), written the way
    [ZoneState]'s are. *)
Module OperatingModeCodec.

Definition swap (kv : Z * Z) : Z * Z := (snd kv, fst kv).

(** Modelled from the spec: [OperatingMode.to_mqtt], the text of the wire
    value that the wire map gives for the flags; it raises when the map has
    none. *)
Definition to_mqtt (wire_map : list (Z * Z)) (self : Z) : outcome string :=
  match Py.getitem (map swap wire_map) self with
  | Returns n => Returns (Py.str n)
  | Raises e => Raises e
  end.

(** Modelled from the spec: [OperatingMode.from_mqtt], the flags that the
    wire map gives for the wire value; it raises when the value is outside
    the map. *)
Definition from_mqtt {I : PyInt} (wire_map : list (Z * Z)) (value : string)
  : outcome Z :=
  match Py.int value with
  | Returns n => Py.getitem wire_map n
  | Raises e => Raises e
  end.

(** The spec's smallest map: "0" is disabled, "1" is enabled (Heat). *)
Definition single_flag_map : list (Z * Z) := [(0, 0); (1, 1)].

End OperatingModeCodec.

(** ** The entity and the world it runs in *)

Section Climate.

Context {I : PyInt} {OM : OperatingModeEnum} {PF : PyFloat}.

(** The attributes of a [HeishaMonZoneClimate] object that its methods
    read or write. *)
Record HeishaMonZoneClimate : Type := {
  discovery_prefix : string;
  zone_id : Z;
  _attr_hvac_mode : HVACMode.t;
  _zone_state : Z;
  _operating_mode : Z;
  _mode : ZoneClimateMode.t;
  _attr_min_temp : Z;
  _attr_max_temp : Z;
  _attr_target_temperature_step : Z;
  _attr_current_temperature : option pyfloat;
  _attr_target_temperature : option pyfloat
}.

(** The entity together with its two collaborators: the MQTT client,
    which accepts or refuses each hand-off (given what it already holds),
    and Home Assistant's state machine, which records every state
    written to it. *)
Record world : Type := {
  self : HeishaMonZoneClimate;
  mqtt_accepts : list publication -> publication -> bool;
  mqtt_published : list publication;
  ha_states : list HeishaMonZoneClimate
}.

Definition with_self (e : HeishaMonZoneClimate) (w : world) : world :=
  {| self := e;
     mqtt_accepts := mqtt_accepts w;
     mqtt_published := mqtt_published w;
     ha_states := ha_states w |}.

(** *** Attribute assignments *)

Definition set_attr_hvac_mode (v : HVACMode.t) (e : HeishaMonZoneClimate) :=
  {| discovery_prefix := discovery_prefix e;
     zone_id := zone_id e;
     _attr_hvac_mode := v;
     _zone_state := _zone_state e;
     _operating_mode := _operating_mode e;
     _mode := _mode e;
     _attr_min_temp := _attr_min_temp e;
     _attr_max_temp := _attr_max_temp e;
     _attr_target_temperature_step := _attr_target_temperature_step e;
     _attr_current_temperature := _attr_current_temperature e;
     _attr_target_temperature := _attr_target_temperature e |}.

Definition set_zone_state (v : Z) (e : HeishaMonZoneClimate) :=
  {| discovery_prefix := discovery_prefix e;
     zone_id := zone_id e;
     _attr_hvac_mode := _attr_hvac_mode e;
     _zone_state := v;
     _operating_mode := _operating_mode e;
     _mode := _mode e;
     _attr_min_temp := _attr_min_temp e;
     _attr_max_temp := _attr_max_temp e;
     _attr_target_temperature_step := _attr_target_temperature_step e;
     _attr_current_temperature := _attr_current_temperature e;
     _attr_target_temperature := _attr_target_temperature e |}.

Definition set_operating_mode (v : Z) (e : HeishaMonZoneClimate) :=
  {| discovery_prefix := discovery_prefix e;
     zone_id := zone_id e;
     _attr_hvac_mode := _attr_hvac_mode e;
     _zone_state := _zone_state e;
     _operating_mode := v;
     _mode := _mode e;
     _attr_min_temp := _attr_min_temp e;
     _attr_max_temp := _attr_max_temp e;
     _attr_target_temperature_step := _attr_target_temperature_step e;
     _attr_current_temperature := _attr_current_temperature e;
     _attr_target_temperature := _attr_target_temperature e |}.

Definition set_mode (v : ZoneClimateMode.t) (e : HeishaMonZoneClimate) :=
  {| discovery_prefix := discovery_prefix e;
     zone_id := zone_id e;
     _attr_hvac_mode := _attr_hvac_mode e;
     _zone_state := _zone_state e;
     _operating_mode := _operating_mode e;
     _mode := v;
     _attr_min_temp := _attr_min_temp e;
     _attr_max_temp := _attr_max_temp e;
     _attr_target_temperature_step := _attr_target_temperature_step e;
     _attr_current_temperature := _attr_current_temperature e;
     _attr_target_temperature := _attr_target_temperature e |}.

Definition set_bounds (lo hi step : Z) (e : HeishaMonZoneClimate) :=
  {| discovery_prefix := discovery_prefix e;
     zone_id := zone_id e;
     _attr_hvac_mode := _attr_hvac_mode e;
     _zone_state := _zone_state e;
     _operating_mode := _operating_mode e;
     _mode := _mode e;
     _attr_min_temp := lo;
     _attr_max_temp := hi;
     _attr_target_temperature_step := step;
     _attr_current_temperature := _attr_current_temperature e;
     _attr_target_temperature := _attr_target_temperature e |}.

Definition set_current_temperature (v : pyfloat) (e : HeishaMonZoneClimate) :=
  {| discovery_prefix := discovery_prefix e;
     zone_id := zone_id e;
     _attr_hvac_mode := _attr_hvac_mode e;
     _zone_state := _zone_state e;
     _operating_mode := _operating_mode e;
     _mode := _mode e;
     _attr_min_temp := _attr_min_temp e;
     _attr_max_temp := _attr_max_temp e;
     _attr_target_temperature_step := _attr_target_temperature_step e;
     _attr_current_temperature := Some v;
     _attr_target_temperature := _attr_target_temperature e |}.

Definition set_target_temperature (v : pyfloat) (e : HeishaMonZoneClimate) :=
  {| discovery_prefix := discovery_prefix e;
     zone_id := zone_id e;
     _attr_hvac_mode := _attr_hvac_mode e;
     _zone_state := _zone_state e;
     _operating_mode := _operating_mode e;
     _mode := _mode e;
     _attr_min_temp := _attr_min_temp e;
     _attr_max_temp := _attr_max_temp e;
     _attr_target_temperature_step := _attr_target_temperature_step e;
     _attr_current_temperature := _attr_current_temperature e;
     _attr_target_temperature := Some v |}.

(** *** Method bodies: state passing with exceptions

    A method body maps the world to its outcome and the world it leaves
    behind; when it raises, the assignments made before the [raise]
    stay. *)
Definition M (A : Type) : Type := world -> outcome A * world.

Definition ret {A : Type} (a : A) : M A := fun w => (Returns a, w).

Definition bind {A B : Type} (m : M A) (k : A -> M B) : M B :=
  fun w =>
    match m w with
    | (Returns a, w') => k a w'
    | (Raises e, w') => (Raises e, w')
    end.

Definition eval {A : Type} (r : outcome A) : M A := fun w => (r, w).

Definition raise {A : Type} (e : exn) : M A := eval (Raises e).

Definition get_self : M HeishaMonZoneClimate := fun w => (Returns (self w), w).

Definition assign (f : HeishaMonZoneClimate -> HeishaMonZoneClimate) : M unit :=
  fun w => (Returns tt, with_self (f (self w)) w).

Definition when (b : bool) (m : M unit) : M unit := if b then m else ret tt.

Notation "x <- m ;; k" := (bind m (fun x => k))
  (at level 61, m at next level, right associativity).
Notation "m ;; k" := (bind m (fun _ => k))
  (at level 61, right associativity).

(** *** The collaborators *)

(** [async_publish(hass, topic, payload, qos, retain, "utf-8")]: the
    message is handed to the MQTT client, or the call raises. *)
Definition async_publish (t p : string) (qos : Z) (retain : bool) : M unit :=
  fun w =>
    let msg := {| pub_topic := t; pub_payload := p;
                  pub_qos := qos; pub_retain := retain |} in
    if mqtt_accepts w (mqtt_published w) msg
    then (Returns tt,
          {| self := self w;
             mqtt_accepts := mqtt_accepts w;
             mqtt_published := mqtt_published w ++ [msg];
             ha_states := ha_states w |})
    else (Raises TransportError, w).

(** [self.async_write_ha_state()]: the entity's current state is pushed
    to Home Assistant, where listeners observe it. *)
Definition async_write_ha_state : M unit :=
  fun w =>
    (Returns tt,
     {| self := self w;
        mqtt_accepts := mqtt_accepts w;
        mqtt_published := mqtt_published w;
        ha_states := ha_states w ++ [self w] |}).

(** *** [HeishaMonZoneClimate] methods and callbacks *)

(** [change_mode(mode, initialization)]; the two logging branches on
    [self._mode == mode] have no effect on the state. *)
Definition change_mode (mode : ZoneClimateMode.t) (initialization : bool)
  : M unit :=
  assign (set_mode mode) ;;
  match mode with
  | ZoneClimateMode.COMPENSATION => assign (set_bounds (-5) 5 1)
  | ZoneClimateMode.DIRECT => assign (set_bounds 15 45 1)
  end ;;
  when (negb initialization) async_write_ha_state.

(** [__init__]: the attributes assigned before [change_mode] is called
    with [initialization=True]; the bounds are placeholders until then. *)
Definition init_attrs (prefix : string) (id : Z) : HeishaMonZoneClimate :=
  {| discovery_prefix := prefix;
     zone_id := id;
     _attr_hvac_mode := HVACMode.OFF;
     _zone_state := ZoneState.none;
     _operating_mode := 0;
     _mode := ZoneClimateMode.DIRECT;
     _attr_min_temp := 0;
     _attr_max_temp := 0;
     _attr_target_temperature_step := 0;
     _attr_current_temperature := None;
     _attr_target_temperature := None |}.

Definition __init__ : M unit :=
  change_mode ZoneClimateMode.DIRECT true.

(** [async_set_temperature(temperature=...)]: [kwargs.get] gives [None]
    when the argument is absent; a temperature is taken to be an [int], a
    [float] would differ only in the text [str] gives.  The branch on
    [self._mode] only picks a log line; its [else] cannot be reached with a
    two-member enum. *)
Definition async_set_temperature (temperature : option Z) : M unit :=
  e <- get_self ;;
  match _mode e with
  | ZoneClimateMode.COMPENSATION => ret tt
  | ZoneClimateMode.DIRECT => ret tt
  end ;;
  let payload := Py.str_opt temperature in
  async_publish
    (discovery_prefix e ++ "commands/SetZ" ++ Py.str (zone_id e)
       ++ "HeatRequestTemperature")
    payload 0 false.

(** Callback on [main/Heating_Mode]. *)
Definition mode_received (msg : message) : M unit :=
  mode <- (if String.eqb (payload msg) "0" then ret ZoneClimateMode.COMPENSATION
           else if String.eqb (payload msg) "1" then ret ZoneClimateMode.DIRECT
           else raise AssertionError) ;;
  e <- get_self ;;
  when (negb (ZoneClimateMode.eqb mode (_mode e))) (change_mode mode false).

(** Callback on [main/Z<id>_Temp]. *)
Definition current_temperature_message_received (msg : message) : M unit :=
  v <- eval (float (payload msg)) ;;
  assign (set_current_temperature v) ;;
  async_write_ha_state.

(** Callback on [main/Z<id>_Heat_Request_Temp]. *)
Definition target_temperature_message_received (msg : message) : M unit :=
  v <- eval (float (payload msg)) ;;
  assign (set_target_temperature v) ;;
  async_write_ha_state.

Definition guess_hvac_mode : M HVACMode.t :=
  e <- get_self ;;
  let global_heating := Flag.contains OperatingMode_HEAT (_operating_mode e) in
  zone <- eval (ZoneState.from_id (zone_id e)) ;;
  let zone_heating := Flag.contains zone (_zone_state e) in
  if global_heating && zone_heating
  then ret HVACMode.HEAT
  else ret HVACMode.OFF.

(** Callback on [main/Zones_State] and on [main/Operating_Mode_State]. *)
Definition heating_conf_message_received (msg : message) : M unit :=
  e <- get_self ;;
  (if String.eqb (topic msg) (discovery_prefix e ++ "main/Zones_State")
   then
     v <- eval (ZoneState.from_mqtt (payload msg)) ;;
     assign (set_zone_state v)
   else if String.eqb (topic msg)
                      (discovery_prefix e ++ "main/Operating_Mode_State")
   then
     v <- eval (OperatingMode_from_mqtt (payload msg)) ;;
     assign (set_operating_mode v)
   else ret tt) ;;
  m <- guess_hvac_mode ;;
  assign (set_attr_hvac_mode m) ;;
  async_write_ha_state.

(** [async_set_hvac_mode(hvac_mode)].  [NotImplemented] is not callable,
    so the last branch raises a [TypeError]. *)
Definition async_set_hvac_mode (hvac_mode : HVACMode.t) : M unit :=
  e <- get_self ;;
  new <- match hvac_mode with
         | HVACMode.HEAT =>
             zone <- eval (ZoneState.from_id (zone_id e)) ;;
             let new_zone_state := Flag.or (_zone_state e) zone in
             let new_operating_mode :=
               Flag.or (_operating_mode e) OperatingMode_HEAT in
             ret (new_zone_state, new_operating_mode)
         | HVACMode.OFF =>
             zone <- eval (ZoneState.from_id (zone_id e)) ;;
             let new_zone_state :=
               Flag.and (_zone_state e) (Flag.invert ZoneState.all zone) in
             let new_operating_mode :=
               if new_zone_state =? ZoneState.none
               then Flag.and (_operating_mode e)
                      (Flag.invert OperatingMode_all OperatingMode_HEAT)
               else _operating_mode e in
             ret (new_zone_state, new_operating_mode)
         | _ => raise TypeError
         end ;;
  let new_zone_state := fst new in
  let new_operating_mode := snd new in
  when (negb (new_operating_mode =? _operating_mode e))
    (p <- eval (OperatingMode_to_mqtt new_operating_mode) ;;
     async_publish (discovery_prefix e ++ "commands/SetOperationMode")
       p 0 false) ;;
  when (negb ((new_zone_state =? _zone_state e)
              || (new_zone_state =? ZoneState.none)))
    (p <- eval (ZoneState.to_mqtt new_zone_state) ;;
     async_publish (discovery_prefix e ++ "commands/SetZones") p 0 false) ;;
  assign (set_attr_hvac_mode hvac_mode) ;;
  async_write_ha_state.

(** *** Everything that can happen to the entity *)

Inductive call : Type :=
| Change_mode (mode : ZoneClimateMode.t) (initialization : bool)
| Set_temperature (temperature : option Z)
| Set_hvac_mode (hvac_mode : HVACMode.t)
| Mode_received (msg : message)
| Current_temperature_received (msg : message)
| Target_temperature_received (msg : message)
| Heating_conf_received (msg : message).

Definition perform (c : call) : M unit :=
  match c with
  | Change_mode mode initialization => change_mode mode initialization
  | Set_temperature temperature => async_set_temperature temperature
  | Set_hvac_mode hvac_mode => async_set_hvac_mode hvac_mode
  | Mode_received msg => mode_received msg
  | Current_temperature_received msg =>
      current_temperature_message_received msg
  | Target_temperature_received msg =>
      target_temperature_message_received msg
  | Heating_conf_received msg => heating_conf_message_received msg
  end.

End Climate.

(** ** Vocabulary for the statements *)


(** Encoding the flags [x] and decoding the result gives [x] back. *)
Definition round_trips_back (decode : string -> outcome Z)
    (encode : Z -> outcome string) (x : Z) : Prop :=
  exists p, encode x = Returns p /\ decode p = Returns x.


Section Vocabulary.

Context {I : PyInt} {OM : OperatingModeEnum} {PF : PyFloat}.

(** The spec's DerivedControlState of a zone: the zone requests heat and
    heat is globally enabled. *)
Definition DerivedControlState (zone zs om : Z) : bool :=
  Flag.contains zone zs && Flag.contains OperatingMode_HEAT om.

Definition hvac_mode_of (on : bool) : HVACMode.t :=
  if on then HVACMode.HEAT else HVACMode.OFF.

(** The two status topics of [heating_conf_message_received]. *)
Definition Zones_State_topic (e : HeishaMonZoneClimate) : string :=
  discovery_prefix e ++ "main/Zones_State".

Definition Operating_Mode_State_topic (e : HeishaMonZoneClimate) : string :=
  discovery_prefix e ++ "main/Operating_Mode_State".

(** The publication on [commands/SetOperationMode] with payload [p]. *)
Definition SetOperationMode (e : HeishaMonZoneClimate) (p : string)
  : publication :=
  {| pub_topic := discovery_prefix e ++ "commands/SetOperationMode";
     pub_payload := p; pub_qos := 0; pub_retain := false |}.

(** The publication on [commands/SetZones] with payload [p]. *)
Definition SetZones (e : HeishaMonZoneClimate) (p : string) : publication :=
  {| pub_topic := discovery_prefix e ++ "commands/SetZones";
     pub_payload := p; pub_qos := 0; pub_retain := false |}.

(** The publication on [commands/SetZ<id>HeatRequestTemperature]. *)
Definition SetHeatRequestTemperature (e : HeishaMonZoneClimate) (p : string)
  : publication :=
  {| pub_topic := discovery_prefix e ++ "commands/SetZ"
                    ++ Py.str (zone_id e) ++ "HeatRequestTemperature";
     pub_payload := p; pub_qos := 0; pub_retain := false |}.

(** The MQTT client takes every message it is handed. *)
Definition reliable (w : world) : Prop :=
  forall log msg, mqtt_accepts w log msg = true.

(** The same world with an MQTT client that takes every message. *)
Definition with_reliable_mqtt (w : world) : world :=
  {| self := self w;
     mqtt_accepts := fun _ _ => true;
     mqtt_published := mqtt_published w;
     ha_states := ha_states w |}.

(** The entity's zone id names a zone, and its cached [ZoneState] is a
    value of the enumeration. *)
Definition well_formed (e : HeishaMonZoneClimate) : Prop :=
  (zone_id e = 1 \/ zone_id e = 2) /\ ZoneState.valid (_zone_state e).

(** The world once [msg] has been handed to the MQTT client. *)
Definition handed_over (msg : publication) (w : world) : world :=
  {| self := self w;
     mqtt_accepts := mqtt_accepts w;
     mqtt_published := (mqtt_published w ++ [msg])%list;
     ha_states := ha_states w |}.

(** The world once the entity's state has been written to Home
    Assistant. *)
Definition written (w : world) : world :=
  {| self := self w;
     mqtt_accepts := mqtt_accepts w;
     mqtt_published := mqtt_published w;
     ha_states := (ha_states w ++ [self w])%list |}.

(** The world after a request whose publications [cmds] were all handed
    over: the requested mode is stored and written to Home Assistant. *)
Definition committed (hvac_mode : HVACMode.t) (cmds : list publication)
    (w : world) : world :=
  {| self := set_attr_hvac_mode hvac_mode (self w);
     mqtt_accepts := mqtt_accepts w;
     mqtt_published := (mqtt_published w ++ cmds)%list;
     ha_states :=
       (ha_states w ++ [set_attr_hvac_mode hvac_mode (self w)])%list |}.

(** The bounds advertised for a mode. *)
Definition bounds (mode : ZoneClimateMode.t) : Z * Z * Z :=
  match mode with
  | ZoneClimateMode.COMPENSATION => (-5, 5, 1)
  | ZoneClimateMode.DIRECT => (15, 45, 1)
  end.

Definition advertised_bounds (e : HeishaMonZoneClimate) : Z * Z * Z :=
  (_attr_min_temp e, _attr_max_temp e, _attr_target_temperature_step e).

End Vocabulary.

(** ** A concrete installation, for examples *)

(** The interpreter of the examples.  Their payloads are all plain text,
    on which [int] does not consult it; it refuses any other text. *)
Definition plain_int : PyInt :=
  {| int_other := fun _ => None |}.

(** The fullwidth digit two (U+FF12), as the bytes of its UTF-8 form. *)
Definition fullwidth_two : string :=
  String (ascii_of_nat 239)
    (String (ascii_of_nat 188) (String (ascii_of_nat 146) EmptyString)).

(** An interpreter that reads the fullwidth digit two as 2, as CPython
    does, and refuses any other text that is not plain. *)
Definition fullwidth_int : PyInt :=
  {| int_other := fun s => if String.eqb s fullwidth_two then Some 2
                           else None |}.

(** The single-flag enumeration of the spec: Heat alone, "0" disabled and
    "1" enabled. *)
Definition single_flag : OperatingModeEnum :=
  {| OperatingMode_HEAT := 1;
     OperatingMode_all := 1;
     OperatingMode_to_mqtt :=
       OperatingModeCodec.to_mqtt OperatingModeCodec.single_flag_map;
     OperatingMode_from_mqtt :=
       @OperatingModeCodec.from_mqtt plain_int
         OperatingModeCodec.single_flag_map |}.



(** Floats kept as the text they were read from. *)
Definition text_float : PyFloat :=
  {| pyfloat := string; float := fun s => Returns s |}.

(** An entity for zone [id] with the given cached flags. *)
Definition sample_entity (id zs om : Z) (hvac : HVACMode.t)
    (mode : ZoneClimateMode.t) : @HeishaMonZoneClimate text_float :=
  {| discovery_prefix := "panasonic_heat_pump/";
     zone_id := id;
     _attr_hvac_mode := hvac;
     _zone_state := zs;
     _operating_mode := om;
     _mode := mode;
     _attr_min_temp := fst (fst (bounds mode));
     _attr_max_temp := snd (fst (bounds mode));
     _attr_target_temperature_step := snd (bounds mode);
     _attr_current_temperature := None;
     _attr_target_temperature := None |}.

(** A world around an entity, nothing published or written yet. *)
Definition sample_world (e : @HeishaMonZoneClimate text_float)
    (accepts : list publication -> publication -> bool) : @world text_float :=
  {| self := e;
     mqtt_accepts := accepts;
     mqtt_published := [];
     ha_states := [] |}.

Definition accept_all (log : list publication) (msg : publication) : bool :=
  true.

(** Refuses [commands/SetZones], takes everything else. *)
Definition refuse_zones (log : list publication) (msg : publication) : bool :=
  negb (String.eqb (pub_topic msg) "panasonic_heat_pump/commands/SetZones").

(** Status messages for the sample installation. *)
Definition zones_state_3 : message :=
  {| topic := "panasonic_heat_pump/main/Zones_State"; payload := "3" |}.

Definition zones_state_2 : message :=
  {| topic := "panasonic_heat_pump/main/Zones_State"; payload := "2" |}.

Definition heating_mode_1 : message :=
  {| topic := "panasonic_heat_pump/main/Heating_Mode"; payload := "1" |}.

Definition zones_state_fullwidth_2 : message :=
  {| topic := "panasonic_heat_pump/main/Zones_State";
     payload := fullwidth_two |}.

(** ** Subscriptions, histories and status decoding *)

Section Lifecycle.

Context {I : PyInt} {OM : OperatingModeEnum} {PF : PyFloat}.

(** [async_added_to_hass]: the subscriptions it makes, in order.  Each is
    a topic and the callback registered on it, the callback being named by
    the call it makes of a received message. *)
Definition async_added_to_hass (e : HeishaMonZoneClimate)
  : list (string * (message -> call)) :=
  [ (discovery_prefix e ++ "main/Heating_Mode", Mode_received);
    (discovery_prefix e ++ "main/Z" ++ Py.str (zone_id e) ++ "_Temp",
     Current_temperature_received);
    (discovery_prefix e ++ "main/Z" ++ Py.str (zone_id e)
       ++ "_Heat_Request_Temp",
     Target_temperature_received);
    (discovery_prefix e ++ "main/Zones_State", Heating_conf_received);
    (discovery_prefix e ++ "main/Operating_Mode_State",
     Heating_conf_received) ].

(** The branch on [message.topic] that opens
    [heating_conf_message_received]: the entity with the decoded flag
    assigned, or the exception of the decoder. *)
Definition status_update (msg : message) (e : HeishaMonZoneClimate)
  : outcome HeishaMonZoneClimate :=
  if String.eqb (topic msg) (discovery_prefix e ++ "main/Zones_State")
  then match ZoneState.from_mqtt (payload msg) with
       | Returns v => Returns (set_zone_state v e)
       | Raises x => Raises x
       end
  else if String.eqb (topic msg)
            (discovery_prefix e ++ "main/Operating_Mode_State")
  then match OperatingMode_from_mqtt (payload msg) with
       | Returns v => Returns (set_operating_mode v e)
       | Raises x => Raises x
       end
  else Returns e.

(** The world after a history of calls, each made whatever the one before
    it returned or raised. *)
Fixpoint perform_all (cs : list call) (w : world) : world :=
  match cs with
  | [] => w
  | c :: cs' => perform_all cs' (snd (perform c w))
  end.

(** The world right after the constructor has run. *)
Definition constructed (prefix : string) (id : Z)
    (accepts : list publication -> publication -> bool) : world :=
  snd (__init__ {| self := init_attrs prefix id;
                   mqtt_accepts := accepts;
                   mqtt_published := [];
                   ha_states := [] |}).

(** [async_setup_entry]: the two entities it hands to
    [async_add_entities], for zone 1 and zone 2, on the configured topic
    prefix. *)
Definition async_setup_entry (discovery_prefix : string)
    (accepts : list publication -> publication -> bool) : list world :=
  let zone1_climate := constructed discovery_prefix 1 accepts in
  let zone2_climate := constructed discovery_prefix 2 accepts in
  [zone1_climate; zone2_climate].

(** Two entities agree on the device: same topic prefix, same cached
    flags. *)
Definition in_step (a b : HeishaMonZoneClimate) : Prop :=
  discovery_prefix a = discovery_prefix b /\
  _zone_state a = _zone_state b /\
  _operating_mode a = _operating_mode b.

(** The stored hvac mode is the one guessed from the cached flags. *)
Definition mode_is_derived (zone : Z) (e : HeishaMonZoneClimate) : Prop :=
  _attr_hvac_mode e
    = hvac_mode_of
        (DerivedControlState zone (_zone_state e) (_operating_mode e)).

End Lifecycle.

(** More status messages for the sample installation. *)
Definition zones_state_padded_1 : message :=
  {| topic := "panasonic_heat_pump/main/Zones_State"; payload := " 1 " |}.

Definition operating_mode_state_1 : message :=
  {| topic := "panasonic_heat_pump/main/Operating_Mode_State";
     payload := "1" |}.

Definition zones_state_0 : message :=
  {| topic := "panasonic_heat_pump/main/Zones_State"; payload := "0" |}.

Definition heating_mode_padded_1 : message :=
  {| topic := "panasonic_heat_pump/main/Heating_Mode"; payload := " 1" |}.

(** * Properties *)

Local Open Scope list_scope.

(** ** Flag arithmetic *)

Lemma or_absorbs_iff (a b : Z) : Flag.or a b = a <-> Flag.contains b a = true.
Proof.
  unfold Flag.or, Flag.contains. rewrite Z.eqb_eq. split; intro H.
  - rewrite <- H. apply Z.bits_inj'. intros n _.
    rewrite Z.land_spec, Z.lor_spec.
    destruct (Z.testbit a n), (Z.testbit b n); reflexivity.
  - rewrite <- H. apply Z.bits_inj'. intros n _.
    rewrite Z.lor_spec, Z.land_spec.
    destruct (Z.testbit a n), (Z.testbit b n); reflexivity.
Qed.

Lemma or_eqb_contains (a b : Z) : (Flag.or a b =? a) = Flag.contains b a.
Proof.
  destruct (Flag.contains b a) eqn:E.
  - apply Z.eqb_eq, or_absorbs_iff, E.
  - apply Z.eqb_neq. intro H. apply or_absorbs_iff in H. congruence.
Qed.

(** Removing a non-empty flag leaves a value that does not contain it. *)
Lemma removed_not_contained (all a x : Z) :
  a <> 0 -> Flag.contains a (Flag.and x (Flag.invert all a)) = false.
Proof.
  intro Ha. unfold Flag.contains, Flag.and, Flag.invert.
  apply Z.eqb_neq. intro H. apply Ha. rewrite <- H.
  apply Z.bits_inj'. intros n Hn.
  rewrite !Z.land_spec, Z.bits_0. rewrite Z.lnot_spec by assumption.
  destruct (Z.testbit a n); simpl; rewrite ?andb_false_r; reflexivity.
Qed.

Lemma remove_self (all a : Z) : Flag.and a (Flag.invert all a) = 0.
Proof.
  unfold Flag.and, Flag.invert. apply Z.bits_inj'. intros n Hn.
  rewrite !Z.land_spec, Z.bits_0. rewrite Z.lnot_spec by assumption.
  destruct (Z.testbit a n); simpl; rewrite ?andb_false_r; reflexivity.
Qed.

(** [int] raises nothing but [ValueError]. *)
Lemma int_raises {I : PyInt} (s : string) (x : exn) :
  Py.int s = Raises x -> x = ValueError.
Proof.
  unfold Py.int.
  destruct (if Py.is_plain s then Py.int_ascii s else int_other s);
    intro H; [discriminate H | injection H as <-; reflexivity].
Qed.

Lemma from_id_cases (id zone : Z) :
  ZoneState.from_id id = Returns zone ->
  (id = 1 /\ zone = 1) \/ (id = 2 /\ zone = 2).
Proof.
  unfold ZoneState.from_id, ZoneState.ZONE1, ZoneState.ZONE2.
  destruct (id =? 1) eqn:E1; [apply Z.eqb_eq in E1; intro H; inversion H; auto|].
  destruct (id =? 2) eqn:E2; [apply Z.eqb_eq in E2; intro H; inversion H; auto|].
  discriminate.
Qed.

Lemma valid_cases (zs : Z) :
  ZoneState.valid zs -> zs = 0 \/ zs = 1 \/ zs = 2 \/ zs = 3.
Proof. unfold ZoneState.valid. lia. Qed.

Section Properties.

Context {I : PyInt} {OM : OperatingModeEnum} {PF : PyFloat}.

Ltac unfold_methods :=
  unfold async_set_hvac_mode, heating_conf_message_received,
    guess_hvac_mode, mode_received, change_mode, async_set_temperature,
    current_temperature_message_received,
    target_temperature_message_received, __init__,
    when, bind, ret, raise, eval, get_self, assign,
    async_publish, async_write_ha_state, with_self in *.

Ltac unfold_goal :=
  unfold async_set_hvac_mode, heating_conf_message_received,
    guess_hvac_mode, mode_received, change_mode, async_set_temperature,
    current_temperature_message_received,
    target_temperature_message_received, __init__,
    when, bind, ret, raise, eval, get_self, assign,
    async_publish, async_write_ha_state, with_self.

(** *** What a request publishes when the MQTT client is reliable *)

Lemma heat_run_reliable (w : world) (zone : Z) (p_om : string) :
  ZoneState.from_id (zone_id (self w)) = Returns zone ->
  ZoneState.valid (_zone_state (self w)) ->
  reliable w ->
  let zs := _zone_state (self w) in
  let om := _operating_mode (self w) in
  let new_zone_state := Flag.or zs zone in
  let new_operating_mode := Flag.or om OperatingMode_HEAT in
  (new_operating_mode <> om ->
   OperatingMode_to_mqtt new_operating_mode = Returns p_om) ->
  exists p_zs,
    ZoneState.to_mqtt new_zone_state = Returns p_zs /\
    new_zone_state <> 0 /\
    async_set_hvac_mode HVACMode.HEAT w =
      (Returns tt,
       committed HVACMode.HEAT
         ((if new_operating_mode =? om then []
           else [SetOperationMode (self w) p_om])
          ++ (if (new_zone_state =? zs) || (new_zone_state =? 0)
              then [] else [SetZones (self w) p_zs])) w).
Proof.
  intros Hid Hzs Hrel zs om nzs nom Henc.
  destruct w as [e acc pub st]. unfold reliable in Hrel. simpl in *.
  subst zs om nzs nom.
  apply from_id_cases in Hid as Hid'.
  apply valid_cases in Hzs.
  unfold_methods. unfold committed. simpl. rewrite Hid. simpl.
  destruct (Flag.or (_operating_mode e) OperatingMode_HEAT
            =? _operating_mode e) eqn:Eom; simpl;
    [| rewrite Henc by (apply Z.eqb_neq; exact Eom); rewrite Hrel; simpl ];
    destruct Hid' as [[_ ->] | [_ ->]];
    destruct Hzs as [-> | [-> | [-> | ->]]]; simpl; rewrite ?Hrel;
    eexists; (split; [reflexivity |]); (split; [discriminate |]);
    simpl; rewrite <- ?app_assoc; simpl; rewrite ?app_nil_r;
    reflexivity.
Qed.

Lemma off_run_reliable (w : world) (zone : Z) (p_om : string) :
  ZoneState.from_id (zone_id (self w)) = Returns zone ->
  ZoneState.valid (_zone_state (self w)) ->
  reliable w ->
  let zs := _zone_state (self w) in
  let om := _operating_mode (self w) in
  let new_zone_state := Flag.and zs (Flag.invert ZoneState.all zone) in
  let new_operating_mode :=
    if new_zone_state =? 0
    then Flag.and om (Flag.invert OperatingMode_all OperatingMode_HEAT)
    else om in
  (new_operating_mode <> om ->
   OperatingMode_to_mqtt new_operating_mode = Returns p_om) ->
  exists p_zs,
    (new_zone_state <> 0 -> ZoneState.to_mqtt new_zone_state = Returns p_zs) /\
    new_zone_state = Z.ldiff zs zone /\
    async_set_hvac_mode HVACMode.OFF w =
      (Returns tt,
       committed HVACMode.OFF
         ((if new_operating_mode =? om then []
           else [SetOperationMode (self w) p_om])
          ++ (if (new_zone_state =? zs) || (new_zone_state =? 0)
              then [] else [SetZones (self w) p_zs])) w).
Proof.
  intros Hid Hzs Hrel zs om nzs nom Henc.
  destruct w as [e acc pub st]. unfold reliable in Hrel. simpl in *.
  subst zs om nzs nom.
  apply from_id_cases in Hid as Hid'.
  apply valid_cases in Hzs.
  exists (match ZoneState.to_mqtt
                  (Flag.and (_zone_state e) (Flag.invert ZoneState.all zone))
          with Returns p => p | Raises _ => EmptyString end).
  unfold_methods. unfold committed. simpl. rewrite Hid. simpl.
  destruct Hid' as [[_ ->] | [_ ->]];
    destruct Hzs as [Ez | [Ez | [Ez | Ez]]]; rewrite Ez in *; simpl in *;
    try (destruct (Flag.and (_operating_mode e)
                     (Flag.invert OperatingMode_all OperatingMode_HEAT)
                   =? _operating_mode e) eqn:Eom; simpl;
         [| rewrite Henc by (apply Z.eqb_neq; exact Eom);
            rewrite Hrel; simpl ]);
    rewrite ?Z.eqb_refl; simpl; rewrite ?Hrel; simpl;
    (split; [intros; try reflexivity; congruence |]);
    (split; [reflexivity |]);
    simpl; rewrite <- ?app_assoc; simpl; rewrite ?app_nil_r;
    reflexivity.
Qed.

(** *** Requests to heat and to turn off *)

(** C1. From every cached state and for each zone, a request to heat
    computes the cached zone set with the zone added and the cached
    operating mode with Heat added.  With a reliable MQTT client it
    publishes the operating-mode command exactly when the operating mode
    changes, then the zone command exactly when the zone set changes and
    is not empty, and stores the requested mode.  From an empty zone set
    with Heat disabled these are exactly the two commands, operating mode
    first. *)
Theorem request_zone_on_commands (w : world) (zone : Z) (p_om : string) :
  ZoneState.from_id (zone_id (self w)) = Returns zone ->
  ZoneState.valid (_zone_state (self w)) ->
  reliable w ->
  let zs := _zone_state (self w) in
  let om := _operating_mode (self w) in
  let new_zone_set := Flag.or zs zone in
  let new_operating_mode := Flag.or om OperatingMode_HEAT in
  (new_operating_mode <> om ->
   OperatingMode_to_mqtt new_operating_mode = Returns p_om) ->
  exists p_zs cmds,
    ZoneState.to_mqtt new_zone_set = Returns p_zs /\
    async_set_hvac_mode HVACMode.HEAT w
      = (Returns tt, committed HVACMode.HEAT cmds w) /\
    cmds =
      (if new_operating_mode =? om then []
       else [SetOperationMode (self w) p_om])
      ++ (if (new_zone_set =? zs) || (new_zone_set =? ZoneState.none)
          then [] else [SetZones (self w) p_zs]) /\
    (Flag.contains OperatingMode_HEAT om = false ->
     zs = ZoneState.none ->
     cmds = [SetOperationMode (self w) p_om; SetZones (self w) p_zs]).
Proof.
  intros Hid Hzs Hrel zs om nzs nom Henc.
  destruct (heat_run_reliable w zone p_om Hid Hzs Hrel Henc)
    as [p_zs [Hp [Hne Hrun]]].
  exists p_zs. eexists. split; [exact Hp |]. split; [exact Hrun |].
  split; [reflexivity |].
  intros Hoff Hempty.
  fold zs om nzs nom.
  assert (Eom : (nom =? om) = false).
  { subst nom. rewrite or_eqb_contains. exact Hoff. }
  assert (Ezs : ((nzs =? zs) || (nzs =? 0)) = false).
  { apply orb_false_iff. split; apply Z.eqb_neq.
    - rewrite Hempty. exact Hne.
    - exact Hne. }
  rewrite Eom. unfold ZoneState.none in *. rewrite Ezs. reflexivity.
Qed.

(** C2. From every cached state and for each zone, a request to turn off
    removes the zone from the cached zone set.  When nothing is left it
    also removes Heat from the operating mode, and the only command it
    can publish is the operating-mode one, never a zone command; when
    something is left the operating mode is untouched and the only
    command it can publish is the zone command.  From both zones,
    turning zone 1 off publishes the single zone command "1"; from zone 1
    alone with Heat, it publishes the single command that sets the empty
    operating mode. *)
Theorem request_zone_off_commands (w : world) (zone : Z) (p_om : string) :
  ZoneState.from_id (zone_id (self w)) = Returns zone ->
  ZoneState.valid (_zone_state (self w)) ->
  reliable w ->
  OperatingMode_HEAT <> 0 ->
  let zs := _zone_state (self w) in
  let om := _operating_mode (self w) in
  let new_zone_set := Flag.and zs (Flag.invert ZoneState.all zone) in
  let new_operating_mode :=
    if new_zone_set =? ZoneState.none
    then Flag.and om (Flag.invert OperatingMode_all OperatingMode_HEAT)
    else om in
  (new_operating_mode <> om ->
   OperatingMode_to_mqtt new_operating_mode = Returns p_om) ->
  exists cmds,
    async_set_hvac_mode HVACMode.OFF w
      = (Returns tt, committed HVACMode.OFF cmds w) /\
    new_zone_set = Z.ldiff zs zone /\
    (new_zone_set = ZoneState.none ->
     Flag.contains OperatingMode_HEAT new_operating_mode = false /\
     cmds = if new_operating_mode =? om then []
            else [SetOperationMode (self w) p_om]) /\
    (new_zone_set <> ZoneState.none ->
     new_operating_mode = om /\
     exists p_zs,
       ZoneState.to_mqtt new_zone_set = Returns p_zs /\
       cmds = if new_zone_set =? zs then [] else [SetZones (self w) p_zs]) /\
    (zs = ZoneState.all -> zone = ZoneState.ZONE1 ->
     cmds = [SetZones (self w) "1"]) /\
    (zs = ZoneState.ZONE1 -> zone = ZoneState.ZONE1 ->
     om = OperatingMode_HEAT ->
     new_operating_mode = 0 /\
     cmds = [SetOperationMode (self w) p_om]).
Proof.
  intros Hid Hzs Hrel Hheat zs om nzs nom Henc.
  destruct (off_run_reliable w zone p_om Hid Hzs Hrel Henc)
    as [p_zs [Hp [Hdiff Hrun]]].
  fold zs om nzs in Hp, Hdiff, Hrun.
  eexists. split; [exact Hrun |]. split; [exact Hdiff |].
  clear Hrun Henc. subst nom. unfold ZoneState.none in *.
  destruct (nzs =? 0) eqn:E0.
  - apply Z.eqb_eq in E0.
    split; [intros _; split;
            [apply removed_not_contained, Hheat
            | rewrite orb_true_r, app_nil_r; reflexivity] |].
    split; [intro; congruence |].
    split.
    + intros Eall Ezone. exfalso. subst nzs.
      rewrite Eall, Ezone in E0. discriminate.
    + intros _ _ Eheat. rewrite Eheat, remove_self.
      split; [reflexivity |].
      destruct (0 =? OperatingMode_HEAT) eqn:E.
      * apply Z.eqb_eq in E. congruence.
      * rewrite orb_true_r. reflexivity.
  - apply Z.eqb_neq in E0.
    split; [intro; congruence |].
    split; [intros _; split; [reflexivity |]; exists p_zs;
            split; [exact (Hp E0)
                   | rewrite Z.eqb_refl, orb_false_r; reflexivity] |].
    split.
    + intros Eall Ezone. rewrite Z.eqb_refl. simpl.
      specialize (Hp E0). subst nzs. rewrite Eall, Ezone in *.
      inversion Hp. reflexivity.
    + intros E1 Ezone _. exfalso. apply E0. subst nzs.
      rewrite E1, Ezone. reflexivity.
Qed.

(** C3 as the code has it.  A request to heat for a zone already in the
    cached zone set publishes no zone command; it publishes nothing at
    all exactly when Heat is already in the cached operating mode, and
    otherwise the single operating-mode command that adds Heat.  A
    request to turn off a zone that is not in the cached zone set
    publishes nothing when that set is not empty; when it is empty it
    publishes nothing exactly when removing Heat leaves the cached
    operating mode as it is, and otherwise the single operating-mode
    command that removes Heat. *)
Theorem repeated_request_commands (w : world) (zone : Z) (p_om : string) :
  ZoneState.from_id (zone_id (self w)) = Returns zone ->
  ZoneState.valid (_zone_state (self w)) ->
  reliable w ->
  let zs := _zone_state (self w) in
  let om := _operating_mode (self w) in
  let with_heat := Flag.or om OperatingMode_HEAT in
  let without_heat :=
    Flag.and om (Flag.invert OperatingMode_all OperatingMode_HEAT) in
  (Flag.contains zone zs = true ->
   (with_heat <> om -> OperatingMode_to_mqtt with_heat = Returns p_om) ->
   async_set_hvac_mode HVACMode.HEAT w
     = (Returns tt,
        committed HVACMode.HEAT
          (if Flag.contains OperatingMode_HEAT om then []
           else [SetOperationMode (self w) p_om]) w))
  /\
  (Flag.contains zone zs = false ->
   (without_heat <> om ->
    OperatingMode_to_mqtt without_heat = Returns p_om) ->
   async_set_hvac_mode HVACMode.OFF w
     = (Returns tt,
        committed HVACMode.OFF
          (if (zs =? ZoneState.none) && negb (without_heat =? om)
           then [SetOperationMode (self w) p_om] else []) w)).
Proof.
  intros Hid Hzs Hrel zs om with_heat without_heat. split.
  - intros Hin Henc.
    destruct (heat_run_reliable w zone p_om Hid Hzs Hrel Henc)
      as [p_zs [_ [_ Hrun]]].
    rewrite Hrun. fold zs om. f_equal. f_equal.
    rewrite or_eqb_contains.
    apply or_absorbs_iff in Hin. fold zs in Hin. rewrite Hin.
    rewrite Z.eqb_refl. simpl. apply app_nil_r.
  - intros Hout Henc.
    assert (Hsame : Flag.and zs (Flag.invert ZoneState.all zone) = zs).
    { apply from_id_cases in Hid. apply valid_cases in Hzs. fold zs in Hzs.
      destruct Hid as [[_ ->] | [_ ->]];
        destruct Hzs as [E | [E | [E | E]]]; rewrite E in *;
        try reflexivity; discriminate. }
    assert (Henc' :
              (if Flag.and zs (Flag.invert ZoneState.all zone) =? 0
               then without_heat else om) <> om ->
              OperatingMode_to_mqtt
                (if Flag.and zs (Flag.invert ZoneState.all zone) =? 0
                 then without_heat else om) = Returns p_om).
    { destruct (Flag.and zs (Flag.invert ZoneState.all zone) =? 0);
        [exact Henc | congruence]. }
    destruct (off_run_reliable w zone p_om Hid Hzs Hrel Henc')
      as [p_zs [_ [_ Hrun]]].
    rewrite Hrun. fold zs om without_heat. f_equal. f_equal.
    rewrite Hsame, Z.eqb_refl. simpl. rewrite app_nil_r.
    unfold ZoneState.none.
    destruct (zs =? 0); simpl.
    + destruct (without_heat =? om); reflexivity.
    + rewrite Z.eqb_refl. reflexivity.
Qed.

(** *** Status messages and the derived state *)

Lemma append_eqb_prefix (p a b : string) :
  String.eqb (p ++ a)%string (p ++ b)%string = String.eqb a b.
Proof.
  induction p as [| c p IH]; simpl; [reflexivity |].
  rewrite Ascii.eqb_refl. exact IH.
Qed.

Lemma topics_differ (e : HeishaMonZoneClimate) :
  String.eqb (Operating_Mode_State_topic e) (Zones_State_topic e) = false.
Proof.
  unfold Operating_Mode_State_topic, Zones_State_topic.
  rewrite append_eqb_prefix. reflexivity.
Qed.

(** C4. For every cached zone set and operating mode and each zone, the
    mode guessed for the zone is Heat exactly when the zone is in the
    zone set and Heat is in the operating mode; guessing reads nothing
    else and changes nothing.  Every status message that is applied, on
    either topic, stores the mode guessed from the flags as they are
    after the message, whatever was stored before, and writes the state;
    a decodable message on either topic is applied, to its own flag
    only. *)
Theorem derived_control_state (w : world) (zone : Z) :
  ZoneState.from_id (zone_id (self w)) = Returns zone ->
  guess_hvac_mode w
    = (Returns (hvac_mode_of
                  (DerivedControlState zone (_zone_state (self w))
                     (_operating_mode (self w)))), w)
  /\
  (forall msg w',
      heating_conf_message_received msg w = (Returns tt, w') ->
      _attr_hvac_mode (self w')
        = hvac_mode_of
            (DerivedControlState zone (_zone_state (self w'))
               (_operating_mode (self w'))) /\
      ha_states w' = ha_states w ++ [self w'])
  /\
  (forall msg v,
      topic msg = Zones_State_topic (self w) ->
      ZoneState.from_mqtt (payload msg) = Returns v ->
      exists w',
        heating_conf_message_received msg w = (Returns tt, w') /\
        _zone_state (self w') = v /\
        _operating_mode (self w') = _operating_mode (self w))
  /\
  (forall msg v,
      topic msg = Operating_Mode_State_topic (self w) ->
      OperatingMode_from_mqtt (payload msg) = Returns v ->
      exists w',
        heating_conf_message_received msg w = (Returns tt, w') /\
        _operating_mode (self w') = v /\
        _zone_state (self w') = _zone_state (self w)).
Proof.
  intro Hid. destruct w as [e acc pub st]. simpl in *.
  assert (Hguess : forall e' : HeishaMonZoneClimate,
             zone_id e' = zone_id e ->
             forall acc' pub' st',
               guess_hvac_mode
                 {| self := e'; mqtt_accepts := acc';
                    mqtt_published := pub'; ha_states := st' |}
               = (Returns (hvac_mode_of
                             (DerivedControlState zone (_zone_state e')
                                (_operating_mode e'))),
                  {| self := e'; mqtt_accepts := acc';
                     mqtt_published := pub'; ha_states := st' |})).
  { intros e' Hz acc' pub' st'. unfold_methods. simpl.
    rewrite Hz, Hid. unfold DerivedControlState, hvac_mode_of.
    rewrite andb_comm.
    destruct (Flag.contains zone (_zone_state e')
              && Flag.contains OperatingMode_HEAT (_operating_mode e'));
      reflexivity. }
  split; [apply Hguess; reflexivity |].
  split; [| split].
  - intros msg w'.
    unfold heating_conf_message_received.
    unfold bind, get_self, eval, assign, ret, with_self. simpl.
    destruct (String.eqb (topic msg) (discovery_prefix e ++ "main/Zones_State"));
      [| destruct (String.eqb (topic msg)
                     (discovery_prefix e ++ "main/Operating_Mode_State")) ].
    + destruct (ZoneState.from_mqtt (payload msg)); [| discriminate].
      simpl. rewrite Hguess by reflexivity.
      unfold async_write_ha_state. simpl.
      intro H. inversion H. simpl. auto.
    + destruct (OperatingMode_from_mqtt (payload msg)); [| discriminate].
      simpl. rewrite Hguess by reflexivity.
      unfold async_write_ha_state. simpl.
      intro H. inversion H. simpl. auto.
    + rewrite Hguess by reflexivity.
      unfold async_write_ha_state. simpl.
      intro H. inversion H. simpl. auto.
  - intros msg v Ht Hv. unfold Zones_State_topic in Ht.
    unfold heating_conf_message_received.
    unfold bind, get_self, eval, assign, ret, with_self. simpl.
    rewrite Ht, String.eqb_refl, Hv. simpl.
    rewrite Hguess by reflexivity.
    unfold async_write_ha_state. simpl.
    eexists. split; [reflexivity |]. simpl. auto.
  - intros msg v Ht Hv.
    pose proof (topics_differ e) as Hd.
    unfold Operating_Mode_State_topic, Zones_State_topic in Ht, Hd.
    unfold heating_conf_message_received.
    unfold bind, get_self, eval, assign, ret, with_self. simpl.
    rewrite Ht, Hd, String.eqb_refl, Hv. simpl.
    rewrite Hguess by reflexivity.
    unfold async_write_ha_state. simpl.
    eexists. split; [reflexivity |]. simpl. auto.
Qed.

(** *** Setpoints and mode policy *)

(** C5 as the code has it.  Setting the temperature checks nothing
    against the bounds of the active mode: for every value and in both
    modes it hands one command carrying the value's text to the MQTT
    client, and it fails only when that hand-off is refused.  The bounds,
    15 to 45 by 1 in direct mode and -5 to 5 by 1 in compensation mode,
    are only advertised, by [change_mode]. *)
Theorem set_temperature_is_unchecked (w : world) (temperature : option Z) :
  let cmd :=
    SetHeatRequestTemperature (self w) (Py.str_opt temperature) in
  async_set_temperature temperature w
    = (if mqtt_accepts w (mqtt_published w) cmd
       then (Returns tt, handed_over cmd w)
       else (Raises TransportError, w))
  /\
  (forall mode initialization,
      advertised_bounds (self (snd (change_mode mode initialization w)))
        = bounds mode)
  /\ bounds ZoneClimateMode.DIRECT = (15, 45, 1)
  /\ bounds ZoneClimateMode.COMPENSATION = (-5, 5, 1).
Proof.
  intro cmd. subst cmd. destruct w as [e acc pub st].
  split; [| split; [| split; reflexivity]].
  - unfold_methods. unfold handed_over, SetHeatRequestTemperature. simpl.
    destruct (_mode e); simpl;
      match goal with |- context [acc pub ?m] => destruct (acc pub m) end;
      reflexivity.
  - intros mode initialization.
    destruct mode, initialization; reflexivity.
Qed.

(** C9 as the code has it.  [change_mode] called outside initialization
    always stores the mode and its bounds and writes the state, also when
    the mode is the one already active; called during initialization it
    stores them without writing the state.  The mode-status callback
    calls [change_mode] only when the received mode differs from the
    active one: a message carrying the active mode changes nothing and
    writes nothing. *)
Theorem mode_change_notification (w : world) (mode : ZoneClimateMode.t) :
  (change_mode mode false w
     = (Returns tt,
        written (with_self
                   (let '(lo, hi, step) := bounds mode in
                    set_bounds lo hi step (set_mode mode (self w))) w)))
  /\
  (change_mode mode true w
     = (Returns tt,
        with_self
          (let '(lo, hi, step) := bounds mode in
           set_bounds lo hi step (set_mode mode (self w))) w))
  /\
  (forall msg,
      (payload msg = "0"%string /\ mode = ZoneClimateMode.COMPENSATION)
      \/ (payload msg = "1"%string /\ mode = ZoneClimateMode.DIRECT) ->
      mode_received msg w
        = if ZoneClimateMode.eqb mode (_mode (self w))
          then (Returns tt, w)
          else change_mode mode false w).
Proof.
  destruct w as [e acc pub st].
  split; [| split].
  - destruct mode; reflexivity.
  - destruct mode; reflexivity.
  - intros msg [[Hp ->] | [Hp ->]];
      unfold mode_received, bind, ret, raise, eval, get_self, when;
      rewrite Hp; simpl; destruct (_mode e); reflexivity.
Qed.

(** C6 as the code has it.  A zone status payload that does not denote
    0, 1 or 2 makes the decoder raise ([ValueError] when it is not an
    integer, [KeyError] otherwise); the callback raises the same
    exception to whoever called it, before anything is assigned or
    written: the cached zone set, and the rest of the world, are as they
    were. *)
Theorem malformed_zone_status (w : world) (msg : message) :
  topic msg = Zones_State_topic (self w) ->
  (forall n, Py.int (payload msg) = Returns n -> n <> 0 /\ n <> 1 /\ n <> 2) ->
  exists e,
    (e = KeyError \/ e = ValueError) /\
    ZoneState.from_mqtt (payload msg) = Raises e /\
    heating_conf_message_received msg w = (Raises e, w).
Proof.
  intros Ht Hout. unfold Zones_State_topic in Ht.
  assert (Hdec : exists e, (e = KeyError \/ e = ValueError)
                           /\ ZoneState.from_mqtt (payload msg) = Raises e).
  { unfold ZoneState.from_mqtt.
    destruct (Py.int (payload msg)) as [n | x] eqn:Hint.
    - destruct (Hout n eq_refl) as [H0 [H1 H2]].
      exists KeyError. split; [auto |]. simpl.
      apply Z.eqb_neq in H0, H1, H2. rewrite H0, H1, H2. reflexivity.
    - exists x. split; [| reflexivity].
      right. exact (int_raises _ _ Hint). }
  destruct Hdec as [e [He Hdec]]. exists e.
  split; [exact He |]. split; [exact Hdec |].
  unfold heating_conf_message_received.
  unfold bind, get_self, eval, assign, ret, with_self. simpl.
  rewrite Ht, String.eqb_refl, Hdec. reflexivity.
Qed.

(** *** Hand-off failures *)

Ltac split_cases :=
  repeat match goal with
    | H : context [match ?x with _ => _ end] |- _ =>
        destruct x eqn:?; simpl in H
    | H : (_, _) = (_, _) |- _ => inversion H; clear H; subst
    end.

Local Opaque Z.land Z.lor Z.lnot Z.eqb.

(** A request either returns, having stored and written the requested
    mode, or raises, having touched neither the entity nor Home
    Assistant. *)
Lemma set_hvac_mode_entity
    (w : world) (hvac_mode : HVACMode.t) (r : outcome unit) (w' : world) :
  async_set_hvac_mode hvac_mode w = (r, w') ->
  mqtt_accepts w' = mqtt_accepts w /\
  ((r = Returns tt /\
    self w' = set_attr_hvac_mode hvac_mode (self w) /\
    ha_states w' = ha_states w ++ [self w'])
   \/
   (exists e, r = Raises e /\
              self w' = self w /\ ha_states w' = ha_states w)).
Proof.
  destruct w as [e acc pub st]. intro Hrun.
  unfold_methods. simpl in *.
  split_cases; simpl; split; try reflexivity;
    first [left; repeat split; reflexivity
          | right; eexists; repeat split; reflexivity].
Qed.

(** C7. Whatever the MQTT client does, a request that raises leaves the
    entity and the states written to Home Assistant as they were, and a
    request that returns has stored the requested mode and written it.
    Measured against the commands the request publishes when the client
    is reliable: either every one of them was handed over and the request
    returns, or the request raises [TransportError] at the first one the
    client refuses, with only the commands before it handed over. *)
Theorem optimistic_update_after_handoff
    (w : world) (hvac_mode : HVACMode.t) (r : outcome unit) (w' : world) :
  async_set_hvac_mode hvac_mode w = (r, w') ->
  (forall e, r = Raises e ->
             self w' = self w /\ ha_states w' = ha_states w)
  /\
  (r = Returns tt ->
   self w' = set_attr_hvac_mode hvac_mode (self w) /\
   ha_states w' = ha_states w ++ [self w'])
  /\
  (forall ideal,
      async_set_hvac_mode hvac_mode (with_reliable_mqtt w)
        = (Returns tt, ideal) ->
      (r = Returns tt /\ mqtt_published w' = mqtt_published ideal)
      \/
      (r = Raises TransportError /\
       exists sent refused rest,
         mqtt_published ideal
           = mqtt_published w ++ sent ++ refused :: rest /\
         mqtt_published w' = mqtt_published w ++ sent /\
         mqtt_accepts w (mqtt_published w ++ sent) refused = false)).
Proof.
  intro Hrun.
  destruct (set_hvac_mode_entity w hvac_mode r w' Hrun)
    as [_ [[Hr [Hs Hh]] | [x [Hr [Hs Hh]]]]].
  all: split; [| split].
  1, 4: intros y Hy; subst r; try discriminate; auto.
  1, 3: intro Hy; subst r; try discriminate; auto.
  all: clear Hr Hs Hh; destruct w as [e acc pub st];
    unfold with_reliable_mqtt; unfold_methods; simpl in *.
  all: intros ideal Hideal.
  all:
    destruct hvac_mode; simpl in *; try discriminate;
      destruct (ZoneState.from_id (zone_id e)) as [zone | x'];
      simpl in *; try discriminate;
      repeat match goal with
        | H : context [if ?b then _ else _] |- _ =>
            destruct b eqn:?; simpl in *; try discriminate
        | H : context [match ?x with Returns _ => _ | Raises _ => _ end]
          |- _ =>
            destruct x eqn:?; simpl in *; try discriminate
        end;
      inversion Hrun; inversion Hideal; subst; simpl;
      try (left; split; reflexivity);
      right; (split; [reflexivity |]);
      do 3 eexists;
      (split; [| split;
                 [first [reflexivity | symmetry; apply app_nil_r]
                 | rewrite ?app_nil_r; eassumption]]);
      rewrite <- ?app_assoc; reflexivity.
Qed.

(** *** What may change the cached flags *)

(** Whatever happens to the entity, its zone id and topic prefix stay,
    and a cached flag changes only by a decodable status message on its
    own topic. *)
Lemma perform_flags (w : world) (c : call) :
  let w' := snd (perform c w) in
  zone_id (self w') = zone_id (self w) /\
  discovery_prefix (self w') = discovery_prefix (self w) /\
  (_zone_state (self w') <> _zone_state (self w) ->
   exists msg,
     c = Heating_conf_received msg /\
     topic msg = Zones_State_topic (self w) /\
     ZoneState.from_mqtt (payload msg) = Returns (_zone_state (self w')))
  /\
  (_operating_mode (self w') <> _operating_mode (self w) ->
   exists msg,
     c = Heating_conf_received msg /\
     topic msg = Operating_Mode_State_topic (self w) /\
     OperatingMode_from_mqtt (payload msg)
       = Returns (_operating_mode (self w'))).
Proof.
  intro w'. subst w'.
  destruct c as [mode ini | t | m | msg | msg | msg | msg]; simpl.
  - destruct w as [e acc pub st]. destruct mode, ini; simpl;
      repeat split; intro H; exfalso; apply H; reflexivity.
  - destruct w as [e acc pub st]. unfold_goal. simpl.
    destruct (_mode e); simpl;
      match goal with |- context [acc pub ?x] => destruct (acc pub x) end;
      simpl; repeat split; intro H; exfalso; apply H; reflexivity.
  - destruct (async_set_hvac_mode m w) as [r w1] eqn:Hrun. simpl.
    destruct (set_hvac_mode_entity w m r w1 Hrun)
      as [_ [[_ [Hs _]] | [x [_ [Hs _]]]]]; rewrite Hs; simpl;
      repeat repeat split; intro H; exfalso; apply H; reflexivity.
  - destruct w as [e acc pub st]. unfold_goal. simpl.
    destruct (String.eqb (payload msg) "0");
      [| destruct (String.eqb (payload msg) "1")]; simpl;
      destruct (_mode e); simpl;
      repeat split; intro H; exfalso; apply H; reflexivity.
  - destruct w as [e acc pub st]. unfold_goal. simpl.
    destruct (float (payload msg)); simpl;
      repeat split; intro H; exfalso; apply H; reflexivity.
  - destruct w as [e acc pub st]. unfold_goal. simpl.
    destruct (float (payload msg)); simpl;
      repeat split; intro H; exfalso; apply H; reflexivity.
  - destruct w as [e acc pub st].
    unfold Zones_State_topic, Operating_Mode_State_topic.
    pose proof (topics_differ e) as Hd.
    unfold Zones_State_topic, Operating_Mode_State_topic in Hd.
    unfold_goal. simpl.
    destruct (String.eqb (topic msg)
                (discovery_prefix e ++ "main/Zones_State")) eqn:Et1;
      [| destruct (String.eqb (topic msg)
                     (discovery_prefix e ++ "main/Operating_Mode_State"))
           eqn:Et2 ].
    + apply String.eqb_eq in Et1.
      destruct (ZoneState.from_mqtt (payload msg)) as [v | x] eqn:Ev; simpl;
        [destruct (ZoneState.from_id (zone_id e)); simpl;
         try destruct (_ && _); simpl |];
        (split; [reflexivity |]; split; [reflexivity |]; split; intro H;
         [ try (exfalso; apply H; reflexivity);
           exists msg; repeat split; assumption
         | exfalso; apply H; reflexivity ]).
    + apply String.eqb_eq in Et2.
      destruct (OperatingMode_from_mqtt (payload msg)) as [v | x] eqn:Ev;
        simpl;
        [destruct (ZoneState.from_id (zone_id e)); simpl;
         try destruct (_ && _); simpl |];
        (split; [reflexivity |]; split; [reflexivity |]; split; intro H;
         [ exfalso; apply H; reflexivity
         | try (exfalso; apply H; reflexivity);
           exists msg; repeat split; assumption ]).
    + simpl. destruct (ZoneState.from_id (zone_id e)); simpl;
        try destruct (_ && _); simpl;
        repeat split; intro H; exfalso; apply H; reflexivity.
Qed.

(** C10. A request for an hvac mode, whether it returns or raises,
    leaves the cached zone set and operating mode as they are: at most
    the stored hvac mode changes, so a second identical request reads the
    same two flags as the first.  Of everything that can happen to the
    entity, only a decodable status message changes a cached flag: one on
    the zone topic for the zone set, one on the operating-mode topic for
    the operating mode. *)
Theorem flags_change_only_on_status (w : world) (hvac_mode : HVACMode.t) :
  let after := snd (async_set_hvac_mode hvac_mode w) in
  let again := snd (async_set_hvac_mode hvac_mode after) in
  (_zone_state (self after) = _zone_state (self w) /\
   _operating_mode (self after) = _operating_mode (self w) /\
   (self after = self w
    \/ self after = set_attr_hvac_mode hvac_mode (self w)))
  /\
  (_zone_state (self again) = _zone_state (self w) /\
   _operating_mode (self again) = _operating_mode (self w))
  /\
  (forall c,
      let w' := snd (perform c w) in
      (_zone_state (self w') <> _zone_state (self w) ->
       exists msg,
         c = Heating_conf_received msg /\
         topic msg = Zones_State_topic (self w) /\
         ZoneState.from_mqtt (payload msg)
           = Returns (_zone_state (self w')))
      /\
      (_operating_mode (self w') <> _operating_mode (self w) ->
       exists msg,
         c = Heating_conf_received msg /\
         topic msg = Operating_Mode_State_topic (self w) /\
         OperatingMode_from_mqtt (payload msg)
           = Returns (_operating_mode (self w')))).
Proof.
  assert (Hframe : forall (w0 : world) m,
             let w1 := snd (async_set_hvac_mode m w0) in
             _zone_state (self w1) = _zone_state (self w0) /\
             _operating_mode (self w1) = _operating_mode (self w0) /\
             (self w1 = self w0
              \/ self w1 = set_attr_hvac_mode m (self w0))).
  { intros w0 m w1. subst w1.
    destruct (async_set_hvac_mode m w0) as [r w1] eqn:Hrun. simpl.
    destruct (set_hvac_mode_entity w0 m r w1 Hrun)
      as [_ [[_ [Hs _]] | [x [_ [Hs _]]]]]; rewrite Hs; simpl; auto. }
  intros after again.
  destruct (Hframe w hvac_mode) as [Hz [Ho Hs]].
  destruct (Hframe after hvac_mode) as [Hz' [Ho' _]].
  fold after in Hz, Ho, Hs. fold again in Hz', Ho'.
  split; [auto |]. split; [split; congruence |].
  intros c w'. destruct (perform_flags w c) as [_ [_ H]]. exact H.
Qed.

(** The zone id keeps naming a zone and the cached zone set stays a value
    of the enumeration, whatever happens to the entity. *)
Lemma perform_preserves_well_formed (w : world) (c : call) :
  well_formed (self w) -> well_formed (self (snd (perform c w))).
Proof.
  intros [Hid Hv]. destruct (perform_flags w c) as [Ez [_ [Hz _]]].
  split; [rewrite Ez; exact Hid |].
  destruct (Z.eq_dec (_zone_state (self (snd (perform c w))))
              (_zone_state (self w))) as [E | E].
  - rewrite E. exact Hv.
  - destruct (Hz E) as [msg [_ [_ Hdec]]].
    revert Hdec. generalize (_zone_state (self (snd (perform c w)))).
    intros v. unfold ZoneState.from_mqtt.
    destruct (Py.int (payload msg)) as [n |]; [| discriminate].
    simpl.
    destruct (n =? 0); [intro H; injection H as <-; vm_compute;
                        split; discriminate |].
    destruct (n =? 1); [intro H; injection H as <-; vm_compute;
                        split; discriminate |].
    destruct (n =? 2); [intro H; injection H as <-; vm_compute;
                        split; discriminate |].
    discriminate.
Qed.

Local Transparent Z.land Z.lor Z.lnot Z.eqb.

(** A freshly constructed entity: off, no flag cached, direct mode with its
    bounds, and nothing written to Home Assistant yet. *)
Lemma init_state (prefix : string) (id : Z)
    (accepts : list publication -> publication -> bool) :
  let w0 := {| self := init_attrs prefix id; mqtt_accepts := accepts;
               mqtt_published := []; ha_states := [] |} in
  exists w,
    __init__ w0 = (Returns tt, w) /\
    _attr_hvac_mode (self w) = HVACMode.OFF /\
    _zone_state (self w) = ZoneState.none /\
    _operating_mode (self w) = 0 /\
    _mode (self w) = ZoneClimateMode.DIRECT /\
    advertised_bounds (self w) = bounds ZoneClimateMode.DIRECT /\
    ha_states w = [] /\
    (id = 1 \/ id = 2 -> well_formed (self w)).
Proof.
  intro w0. eexists. split; [reflexivity |]. simpl.
  repeat split; auto; vm_compute; discriminate.
Qed.

End Properties.

(** ** The codecs *)




(** ** The statements at work on the sample installation *)

Lemma request_zone_on_commands_witness :
  let w := sample_world
             (sample_entity 1 0 0 HVACMode.OFF ZoneClimateMode.DIRECT)
             accept_all in
  ZoneState.from_id (zone_id (self w)) = Returns ZoneState.ZONE1 /\
  ZoneState.valid (_zone_state (self w)) /\
  reliable w /\
  @async_set_hvac_mode single_flag text_float HVACMode.HEAT w
    = (Returns tt,
       committed HVACMode.HEAT
         [SetOperationMode (self w) "1"; SetZones (self w) "0"] w).
Proof.
  intro w.
  assert (Hid : ZoneState.from_id (zone_id (self w)) = Returns ZoneState.ZONE1)
    by reflexivity.
  assert (Hv : ZoneState.valid (_zone_state (self w)))
    by (vm_compute; split; discriminate).
  assert (Hrel : reliable w) by (intros log msg; reflexivity).
  split; [exact Hid |]. split; [exact Hv |]. split; [exact Hrel |].
  destruct (@request_zone_on_commands single_flag text_float w
              ZoneState.ZONE1 "1" Hid Hv Hrel (fun _ => eq_refl))
    as [p_zs [cmds [Hp [Hrun [_ Hboth]]]]].
  rewrite Hrun. rewrite (Hboth eq_refl eq_refl).
  vm_compute in Hp. injection Hp as <-. reflexivity.
Defined.

Lemma request_zone_off_commands_witness :
  let w := sample_world
             (sample_entity 1 3 1 HVACMode.HEAT ZoneClimateMode.DIRECT)
             accept_all in
  ZoneState.from_id (zone_id (self w)) = Returns ZoneState.ZONE1 /\
  ZoneState.valid (_zone_state (self w)) /\
  reliable w /\
  @OperatingMode_HEAT single_flag <> 0 /\
  @async_set_hvac_mode single_flag text_float HVACMode.OFF w
    = (Returns tt, committed HVACMode.OFF [SetZones (self w) "1"] w).
Proof.
  intro w.
  assert (Hid : ZoneState.from_id (zone_id (self w)) = Returns ZoneState.ZONE1)
    by reflexivity.
  assert (Hv : ZoneState.valid (_zone_state (self w)))
    by (vm_compute; split; discriminate).
  assert (Hrel : reliable w) by (intros log msg; reflexivity).
  assert (Hheat : @OperatingMode_HEAT single_flag <> 0) by discriminate.
  split; [exact Hid |]. split; [exact Hv |]. split; [exact Hrel |].
  split; [exact Hheat |].
  destruct (@request_zone_off_commands single_flag text_float w
              ZoneState.ZONE1 "" Hid Hv Hrel Hheat
              (fun H => False_ind _ (H eq_refl)))
    as [cmds [Hrun [_ [_ [_ [Hboth _]]]]]].
  rewrite Hrun. rewrite (Hboth eq_refl eq_refl). reflexivity.
Defined.

Lemma repeated_request_commands_witness :
  let w := sample_world
             (sample_entity 1 1 1 HVACMode.HEAT ZoneClimateMode.DIRECT)
             accept_all in
  ZoneState.from_id (zone_id (self w)) = Returns ZoneState.ZONE1 /\
  ZoneState.valid (_zone_state (self w)) /\
  reliable w /\
  Flag.contains ZoneState.ZONE1 (_zone_state (self w)) = true /\
  @async_set_hvac_mode single_flag text_float HVACMode.HEAT w
    = (Returns tt, committed HVACMode.HEAT [] w).
Proof.
  intro w.
  assert (Hid : ZoneState.from_id (zone_id (self w)) = Returns ZoneState.ZONE1)
    by reflexivity.
  assert (Hv : ZoneState.valid (_zone_state (self w)))
    by (vm_compute; split; discriminate).
  assert (Hrel : reliable w) by (intros log msg; reflexivity).
  split; [exact Hid |]. split; [exact Hv |]. split; [exact Hrel |].
  split; [reflexivity |].
  exact (proj1 (@repeated_request_commands single_flag text_float w
                  ZoneState.ZONE1 "" Hid Hv Hrel)
           eq_refl (fun H => False_ind _ (H eq_refl))).
Defined.

(** C3 fails as stated: heating is requested for a zone that is in the
    cached zone set while Heat is not in the cached operating mode, and a
    zone that is not in the (empty) cached zone set is turned off while
    Heat is in the cached operating mode; each request publishes a
    command. *)
Lemma repeated_request_publishes :
  let w_on := sample_world
                (sample_entity 1 1 0 HVACMode.OFF ZoneClimateMode.DIRECT)
                accept_all in
  let w_off := sample_world
                 (sample_entity 1 0 1 HVACMode.OFF ZoneClimateMode.DIRECT)
                 accept_all in
  (Flag.contains ZoneState.ZONE1 (_zone_state (self w_on)) = true /\
   mqtt_published
     (snd (@async_set_hvac_mode single_flag text_float HVACMode.HEAT w_on))
     = [SetOperationMode (self w_on) "1"])
  /\
  (Flag.contains ZoneState.ZONE1 (_zone_state (self w_off)) = false /\
   mqtt_published
     (snd (@async_set_hvac_mode single_flag text_float HVACMode.OFF w_off))
     = [SetOperationMode (self w_off) "0"]).
Proof. vm_compute. repeat split. Qed.

Lemma derived_control_state_witness :
  let w := sample_world
             (sample_entity 2 3 1 HVACMode.OFF ZoneClimateMode.DIRECT)
             accept_all in
  ZoneState.from_id (zone_id (self w)) = Returns ZoneState.ZONE2 /\
  @guess_hvac_mode single_flag text_float w = (Returns HVACMode.HEAT, w).
Proof.
  intro w.
  assert (Hid : ZoneState.from_id (zone_id (self w)) = Returns ZoneState.ZONE2)
    by reflexivity.
  split; [exact Hid |].
  exact (proj1 (@derived_control_state plain_int single_flag text_float w
                  ZoneState.ZONE2 Hid)).
Defined.

(** C5 fails as stated: 46 in direct mode and 6 in compensation mode lie
    above the advertised maximum, and each is published. *)
Lemma out_of_range_setpoint_published :
  let direct := sample_world
                  (sample_entity 1 0 0 HVACMode.OFF ZoneClimateMode.DIRECT)
                  accept_all in
  let compensation :=
    sample_world
      (sample_entity 1 0 0 HVACMode.OFF ZoneClimateMode.COMPENSATION)
      accept_all in
  (_attr_max_temp (self direct) = 45 /\
   @async_set_temperature text_float (Some 46) direct
     = (Returns tt,
        handed_over (SetHeatRequestTemperature (self direct) "46") direct))
  /\
  (_attr_max_temp (self compensation) = 5 /\
   @async_set_temperature text_float (Some 6) compensation
     = (Returns tt,
        handed_over (SetHeatRequestTemperature (self compensation) "6")
          compensation)).
Proof. vm_compute. repeat split. Qed.

Lemma malformed_zone_status_witness :
  let w := sample_world
             (sample_entity 1 1 1 HVACMode.HEAT ZoneClimateMode.DIRECT)
             accept_all in
  topic zones_state_3 = Zones_State_topic (self w) /\
  @Py.int plain_int (payload zones_state_3) = Returns 3 /\
  exists e,
    @heating_conf_message_received plain_int single_flag text_float
      zones_state_3 w
      = (Raises e, w).
Proof.
  intro w.
  assert (Ht : topic zones_state_3 = Zones_State_topic (self w))
    by reflexivity.
  assert (Hout : forall n,
             @Py.int plain_int (payload zones_state_3) = Returns n ->
                           n <> 0 /\ n <> 1 /\ n <> 2).
  { intros n H. vm_compute in H. injection H as <-.
    repeat split; discriminate. }
  split; [exact Ht |]. split; [reflexivity |].
  destruct (@malformed_zone_status plain_int single_flag text_float w
              zones_state_3
              Ht Hout) as [e [_ [_ Hrun]]].
  exists e. exact Hrun.
Defined.

(** C6 fails as stated: the payload "3" makes the callback raise
    [KeyError] to its caller instead of returning. *)
Lemma malformed_zone_status_raises :
  let w := sample_world
             (sample_entity 1 1 1 HVACMode.HEAT ZoneClimateMode.DIRECT)
             accept_all in
  @heating_conf_message_received plain_int single_flag text_float
    zones_state_3 w
    = (Raises KeyError, w)
  /\ fst (@heating_conf_message_received plain_int single_flag text_float
            zones_state_3 w) <> Returns tt.
Proof. vm_compute. split; [reflexivity | discriminate]. Qed.

(** The payload "3" is plain text: the callback raises [KeyError] on it
    whatever the interpreter does with other text. *)
Lemma plain_status_ignores_interpreter (I : PyInt) :
  let w := sample_world
             (sample_entity 1 1 1 HVACMode.HEAT ZoneClimateMode.DIRECT)
             accept_all in
  @heating_conf_message_received I single_flag text_float zones_state_3 w
    = (Raises KeyError, w).
Proof. reflexivity. Qed.

(** A payload that is not plain text is decoded as the interpreter reads
    it: where the fullwidth digit two is read as 2, the status is applied
    and both zones are cached. *)
Lemma fullwidth_status_is_applied :
  let w := sample_world
             (sample_entity 1 1 1 HVACMode.HEAT ZoneClimateMode.DIRECT)
             accept_all in
  @Py.int fullwidth_int (payload zones_state_fullwidth_2) = Returns 2 /\
  exists w',
    @heating_conf_message_received fullwidth_int single_flag text_float
      zones_state_fullwidth_2 w = (Returns tt, w')
    /\ _zone_state (self w') = ZoneState.all.
Proof.
  intro w. split; [reflexivity |].
  eexists. split; reflexivity.
Qed.

Lemma optimistic_update_after_handoff_witness :
  let w := sample_world
             (sample_entity 1 0 0 HVACMode.OFF ZoneClimateMode.DIRECT)
             refuse_zones in
  let w' := handed_over (SetOperationMode (self w) "1") w in
  @async_set_hvac_mode single_flag text_float HVACMode.HEAT w
    = (Raises TransportError, w')
  /\ self w' = self w
  /\ ha_states w' = ha_states w.
Proof.
  intros w w'.
  assert (Hrun : @async_set_hvac_mode single_flag text_float HVACMode.HEAT w
                 = (Raises TransportError, w')) by reflexivity.
  split; [exact Hrun |].
  exact (proj1 (@optimistic_update_after_handoff single_flag text_float w
                  HVACMode.HEAT (Raises TransportError) w' Hrun)
           TransportError eq_refl).
Defined.


Lemma mode_change_notification_witness :
  let w := sample_world
             (sample_entity 1 0 0 HVACMode.OFF ZoneClimateMode.COMPENSATION)
             accept_all in
  payload heating_mode_1 = "1"%string /\
  exists w',
    @mode_received text_float heating_mode_1 w = (Returns tt, w') /\
    _mode (self w') = ZoneClimateMode.DIRECT /\
    advertised_bounds (self w') = (15, 45, 1) /\
    ha_states w' = [self w'].
Proof.
  intro w. split; [reflexivity |].
  eexists. split.
  - exact (proj2 (proj2 (@mode_change_notification text_float w
                           ZoneClimateMode.DIRECT))
             heating_mode_1 (or_intror (conj eq_refl eq_refl))).
  - repeat split.
Defined.

(** C9 fails as stated: a status message carrying the mode that is already
    active returns without storing or writing anything, and the call made
    during initialization writes no state either. *)
Lemma same_mode_is_skipped :
  let w := sample_world
             (sample_entity 1 0 0 HVACMode.OFF ZoneClimateMode.DIRECT)
             accept_all in
  @mode_received text_float heating_mode_1 w = (Returns tt, w)
  /\ ha_states (snd (@mode_received text_float heating_mode_1 w)) = []
  /\ ha_states (snd (@change_mode text_float ZoneClimateMode.DIRECT true w))
     = [].
Proof. vm_compute. repeat split. Qed.

Lemma flags_change_only_on_status_witness :
  let w := sample_world
             (sample_entity 1 1 1 HVACMode.HEAT ZoneClimateMode.DIRECT)
             accept_all in
  let w' := snd (@perform plain_int single_flag text_float
                   (Heating_conf_received zones_state_2) w) in
  _zone_state (self w') <> _zone_state (self w) /\
  exists msg,
    Heating_conf_received zones_state_2 = Heating_conf_received msg /\
    topic msg = Zones_State_topic (self w) /\
    @ZoneState.from_mqtt plain_int (payload msg)
      = Returns (_zone_state (self w')).
Proof.
  intros w w'.
  assert (Hne : _zone_state (self w') <> _zone_state (self w))
    by (vm_compute; discriminate).
  split; [exact Hne |].
  exact (proj1 (proj2 (proj2 (@flags_change_only_on_status plain_int single_flag
                                text_float w HVACMode.HEAT))
                  (Heating_conf_received zones_state_2))
           Hne).
Defined.

(** * Further properties of the code *)

(** ** The zone flags and their codec *)

(** X1. [ZoneState.to_mqtt] returns exactly on the three non-empty zone
    sets and raises [KeyError] on everything else, the empty set included.
    [ZoneState.from_mqtt] only ever returns one of those three sets, and
    encoding what it returned gives a payload that decodes to the same set;
    when it raises, it raises [KeyError] or [ValueError]. *)
Theorem zone_state_codec_domains {I : PyInt} :
  (forall zs,
      (exists p, ZoneState.to_mqtt zs = Returns p)
      <-> (zs = ZoneState.ZONE1 \/ zs = ZoneState.ZONE2
           \/ zs = ZoneState.all))
  /\
  (forall zs e, ZoneState.to_mqtt zs = Raises e -> e = KeyError)
  /\
  ZoneState.to_mqtt ZoneState.none = Raises KeyError
  /\
  (forall p zs,
      ZoneState.from_mqtt p = Returns zs ->
      zs <> ZoneState.none /\
      ZoneState.valid zs /\
      round_trips_back ZoneState.from_mqtt ZoneState.to_mqtt zs)
  /\
  (forall p e,
      ZoneState.from_mqtt p = Raises e -> e = KeyError \/ e = ValueError).
Proof.
  assert (Hdec : forall p zs,
             ZoneState.from_mqtt p = Returns zs ->
             zs = 1 \/ zs = 2 \/ zs = 3).
  { intros p zs. unfold ZoneState.from_mqtt.
    destruct (Py.int p) as [n |]; [| intro H; discriminate H]. simpl.
    destruct (n =? 0); [intro H; injection H as <-; auto |].
    destruct (n =? 1); [intro H; injection H as <-; auto |].
    destruct (n =? 2); [intro H; injection H as <-; auto |].
    intro H; discriminate H. }
  split; [| split; [| split; [| split]]].
  - clear Hdec. intro zs.
    unfold ZoneState.to_mqtt, ZoneState.all, Flag.or, ZoneState.ZONE1,
      ZoneState.ZONE2.
    simpl. split.
    + intros [p H]. revert H.
      destruct (Z.eqb_spec zs 1); [auto |].
      destruct (Z.eqb_spec zs 2); [auto |].
      destruct (Z.eqb_spec zs 3); [auto |].
      intro H. discriminate H.
    + intros [-> | [-> | ->]]; eexists; reflexivity.
  - clear Hdec. intros zs e.
    unfold ZoneState.to_mqtt, Flag.or, ZoneState.ZONE1, ZoneState.ZONE2.
    simpl.
    destruct (zs =? 1); [intro H; discriminate H |].
    destruct (zs =? 2); [intro H; discriminate H |].
    destruct (zs =? 3); [intro H; discriminate H |].
    intro H. injection H as <-. reflexivity.
  - reflexivity.
  - intros p zs H. destruct (Hdec p zs H) as [-> | [-> | ->]];
      (split; [discriminate |]);
      (split; [vm_compute; split; discriminate |]);
      eexists; split; reflexivity.
  - clear Hdec. intros p e. unfold ZoneState.from_mqtt.
    destruct (Py.int p) as [n | x] eqn:Hint;
      [| intro H; injection H as <-; right; exact (int_raises _ _ Hint)].
    simpl.
    destruct (n =? 0); [intro H; discriminate H |].
    destruct (n =? 1); [intro H; discriminate H |].
    destruct (n =? 2); [intro H; discriminate H |].
    intro H. injection H as <-. auto.
Qed.

(** X2. [ZoneState.from_id] returns exactly for the ids 1 and 2 and raises
    the "No zone with id" exception for any other id.  What it returns is
    a non-empty member of the enumeration, the same flag for the same id,
    and for two different ids two disjoint flags whose union is both
    zones. *)
Theorem from_id_flags (a b : Z) :
  ((exists z, ZoneState.from_id a = Returns z) <-> (a = 1 \/ a = 2))
  /\
  (a <> 1 -> a <> 2 ->
   ZoneState.from_id a
     = Raises (Exception ("No zone with id " ++ Py.str a)%string))
  /\
  (forall za zb,
      ZoneState.from_id a = Returns za ->
      ZoneState.from_id b = Returns zb ->
      za <> ZoneState.none /\
      Flag.contains za ZoneState.all = true /\
      (a = b -> za = zb) /\
      (a <> b ->
       Flag.and za zb = ZoneState.none /\ Flag.or za zb = ZoneState.all)).
Proof.
  split; [| split].
  - split.
    + intros [z H]. apply from_id_cases in H. tauto.
    + intros [-> | ->]; eexists; reflexivity.
  - intros H1 H2. unfold ZoneState.from_id.
    apply Z.eqb_neq in H1, H2. rewrite H1, H2. reflexivity.
  - intros za zb Ha Hb.
    apply from_id_cases in Ha, Hb.
    destruct Ha as [[-> ->] | [-> ->]]; destruct Hb as [[-> ->] | [-> ->]];
      (split; [discriminate |]); (split; [reflexivity |]);
      split; intro H; try reflexivity; try discriminate;
      try (exfalso; apply H; reflexivity); split; reflexivity.
Qed.

Section Further.

Context {I : PyInt} {OM : OperatingModeEnum} {PF : PyFloat}.

(** ** Status messages *)

(** The status callback, in one equation: the flag named by the topic is
    decoded and assigned, then the mode guessed from the flags is stored
    and the state written. *)
Lemma heating_conf_run (w : world) (msg : message) :
  heating_conf_message_received msg w =
    match status_update msg (self w) with
    | Raises x => (Raises x, w)
    | Returns e' =>
        match ZoneState.from_id (zone_id e') with
        | Returns zone =>
            (Returns tt,
             written
               (with_self
                  (set_attr_hvac_mode
                     (hvac_mode_of
                        (DerivedControlState zone (_zone_state e')
                           (_operating_mode e'))) e') w))
        | Raises x => (Raises x, with_self e' w)
        end
    end.
Proof.
  destruct w as [e acc pub st].
  unfold heating_conf_message_received, status_update, guess_hvac_mode,
    bind, get_self, eval, assign, ret, with_self, async_write_ha_state,
    written, DerivedControlState, hvac_mode_of.
  simpl.
  destruct (String.eqb (topic msg) (discovery_prefix e ++ "main/Zones_State"));
    [destruct (ZoneState.from_mqtt (payload msg)); simpl
    | destruct (String.eqb (topic msg)
                  (discovery_prefix e ++ "main/Operating_Mode_State"));
      [destruct (OperatingMode_from_mqtt (payload msg)); simpl | simpl]];
    try reflexivity;
    destruct (ZoneState.from_id (zone_id e)); simpl; try reflexivity;
    rewrite andb_comm;
    match goal with |- context [if ?b then _ else _] => destruct b end;
    reflexivity.
Qed.

Lemma status_update_ids (msg : message) (e e' : HeishaMonZoneClimate) :
  status_update msg e = Returns e' ->
  zone_id e' = zone_id e /\ discovery_prefix e' = discovery_prefix e.
Proof.
  unfold status_update.
  destruct (String.eqb (topic msg) (discovery_prefix e ++ "main/Zones_State"));
    [destruct (ZoneState.from_mqtt (payload msg))
    | destruct (String.eqb (topic msg)
                  (discovery_prefix e ++ "main/Operating_Mode_State"));
      [destruct (OperatingMode_from_mqtt (payload msg)) |]];
    intro H; try discriminate H; injection H as <-; auto.
Qed.

(** X3. A status message that was applied can be applied again: the
    second time the callback returns as well, leaves every attribute of the
    entity as the first application left it, publishes nothing and writes
    that same state once more. *)
Theorem status_message_idempotent (w w1 : world) (msg : message) :
  heating_conf_message_received msg w = (Returns tt, w1) ->
  heating_conf_message_received msg w1 = (Returns tt, written w1).
Proof.
  rewrite !heating_conf_run.
  destruct (status_update msg (self w)) as [e' | x] eqn:Hup;
    [| intro H; discriminate H].
  destruct (status_update_ids msg (self w) e' Hup) as [Hz Hp].
  destruct (ZoneState.from_id (zone_id e')) as [zone | x] eqn:Hid;
    [| intro H; discriminate H].
  intro H. injection H as <-. simpl.
  destruct w as [e acc pub st]. simpl in *.
  unfold status_update in *. simpl. rewrite Hp.
  destruct (String.eqb (topic msg) (discovery_prefix e ++ "main/Zones_State"));
    [destruct (ZoneState.from_mqtt (payload msg)) as [v | y]
    | destruct (String.eqb (topic msg)
                  (discovery_prefix e ++ "main/Operating_Mode_State"));
      [destruct (OperatingMode_from_mqtt (payload msg)) as [v | y] |]];
    try discriminate Hup; injection Hup as <-; simpl in *;
    rewrite Hid; reflexivity.
Qed.

Lemma apply_zones_status (w : world) (msg : message) (zone v : Z) :
  ZoneState.from_id (zone_id (self w)) = Returns zone ->
  topic msg = Zones_State_topic (self w) ->
  ZoneState.from_mqtt (payload msg) = Returns v ->
  heating_conf_message_received msg w
    = (Returns tt,
       written
         (with_self
            (set_attr_hvac_mode
               (hvac_mode_of
                  (DerivedControlState zone v (_operating_mode (self w))))
               (set_zone_state v (self w))) w)).
Proof.
  intros Hid Ht Hv. rewrite heating_conf_run.
  unfold status_update, Zones_State_topic in *.
  rewrite Ht, String.eqb_refl, Hv. simpl. rewrite Hid. reflexivity.
Qed.

Lemma apply_mode_status (w : world) (msg : message) (zone v : Z) :
  ZoneState.from_id (zone_id (self w)) = Returns zone ->
  topic msg = Operating_Mode_State_topic (self w) ->
  OperatingMode_from_mqtt (payload msg) = Returns v ->
  heating_conf_message_received msg w
    = (Returns tt,
       written
         (with_self
            (set_attr_hvac_mode
               (hvac_mode_of
                  (DerivedControlState zone (_zone_state (self w)) v))
               (set_operating_mode v (self w))) w)).
Proof.
  intros Hid Ht Hv. rewrite heating_conf_run.
  pose proof (topics_differ (self w)) as Hd.
  unfold status_update, Zones_State_topic, Operating_Mode_State_topic in *.
  rewrite Ht, Hd, String.eqb_refl, Hv. simpl. rewrite Hid. reflexivity.
Qed.

(** X4. A zone status and an operating-mode status can arrive in either
    order: both orders apply both messages and leave the same entity, with
    the two decoded flags cached and the mode guessed from them stored. *)
Theorem status_messages_commute
    (w : world) (zones mode : message) (zone v_zs v_om : Z) :
  ZoneState.from_id (zone_id (self w)) = Returns zone ->
  topic zones = Zones_State_topic (self w) ->
  topic mode = Operating_Mode_State_topic (self w) ->
  ZoneState.from_mqtt (payload zones) = Returns v_zs ->
  OperatingMode_from_mqtt (payload mode) = Returns v_om ->
  let w_zm :=
    perform_all [Heating_conf_received zones; Heating_conf_received mode] w in
  let w_mz :=
    perform_all [Heating_conf_received mode; Heating_conf_received zones] w in
  self w_zm = self w_mz /\
  _zone_state (self w_zm) = v_zs /\
  _operating_mode (self w_zm) = v_om /\
  _attr_hvac_mode (self w_zm)
    = hvac_mode_of (DerivedControlState zone v_zs v_om).
Proof.
  intros Hid Htz Htm Hz Hm w_zm w_mz. subst w_zm w_mz.
  simpl.
  rewrite (apply_zones_status w zones zone v_zs Hid Htz Hz).
  rewrite (apply_mode_status w mode zone v_om Hid Htm Hm).
  simpl.
  rewrite (apply_mode_status _ mode zone v_om) by (simpl; assumption).
  rewrite (apply_zones_status _ zones zone v_zs) by (simpl; assumption).
  simpl. repeat split; reflexivity.
Qed.

(** ** Requests *)

Lemma guarded_encoding (zs zone nzs : Z) :
  ZoneState.valid zs ->
  ZoneState.from_id zone = Returns nzs \/
  (exists id z, ZoneState.from_id id = Returns z /\
                (nzs = Flag.or zs z
                 \/ nzs = Flag.and zs (Flag.invert ZoneState.all z))) ->
  nzs <> 0 ->
  exists p, ZoneState.to_mqtt nzs = Returns p.
Proof.
  intros Hv H Hne. apply valid_cases in Hv.
  destruct H as [H | [id [z [H [-> | ->]]]]];
    apply from_id_cases in H;
    destruct H as [[_ ->] | [_ ->]];
    try (eexists; reflexivity);
    destruct Hv as [-> | [-> | [-> | ->]]];
    try (eexists; reflexivity); exfalso; apply Hne; reflexivity.
Qed.

Local Opaque Z.land Z.lor Z.lnot Z.eqb.

Ltac raised_tail Henc Hrun :=
  repeat match type of Hrun with
    | context [if ?b then _ else _] => destruct b eqn:?; simpl in Hrun
    | context [match ?x with Returns _ => _ | Raises _ => _ end] =>
        destruct x eqn:?; simpl in Hrun
    end;
  try discriminate Hrun; injection Hrun as <- <-;
  first
    [ right; right; right; split; reflexivity
    | right; right; left; eexists; split; [eassumption | reflexivity]
    | exfalso;
      match goal with
      | G : negb (_ || (_ =? ZoneState.none)) = true |- _ =>
          apply negb_true_iff, orb_false_iff in G;
          destruct G as [_ G]; apply Z.eqb_neq in G;
          destruct (Henc G) as [? ?]; congruence
      end ].

(** X5. With a cached zone set that is a value of the enumeration, a
    request raises only for one of four reasons: the mode is neither HEAT
    nor OFF ([TypeError]), the zone id names no zone, the operating-mode
    encoder raised, or the MQTT client refused a hand-off.  In the first
    three cases nothing was published; in all four the entity is as it
    was.  In particular the zone encoder is never asked for a set it cannot
    encode. *)
Theorem request_exceptions
    (w w' : world) (hvac_mode : HVACMode.t) (x : exn) :
  ZoneState.valid (_zone_state (self w)) ->
  async_set_hvac_mode hvac_mode w = (Raises x, w') ->
  (hvac_mode <> HVACMode.HEAT /\ hvac_mode <> HVACMode.OFF /\
   x = TypeError /\ w' = w)
  \/ (ZoneState.from_id (zone_id (self w)) = Raises x /\ w' = w)
  \/ (exists om, OperatingMode_to_mqtt om = Raises x /\ w' = w)
  \/ (x = TransportError /\ self w' = self w).
Proof.
  intros Hv Hrun. destruct w as [e acc pub st]. simpl in Hv.
  unfold async_set_hvac_mode, bind, get_self, eval, raise, ret, when,
    assign, async_publish, async_write_ha_state, with_self in Hrun.
  simpl in Hrun.
  destruct hvac_mode; simpl in Hrun;
    try (injection Hrun as <- <-; left; repeat split; discriminate).
  - destruct (ZoneState.from_id (zone_id e)) as [zone | y] eqn:Hid;
      simpl in Hrun;
      [| injection Hrun as <- <-; right; left; split;
         [exact Hid | reflexivity]].
    assert (Henc : Flag.and (_zone_state e) (Flag.invert ZoneState.all zone)
                     <> 0 ->
                   exists p,
                     ZoneState.to_mqtt
                       (Flag.and (_zone_state e)
                          (Flag.invert ZoneState.all zone)) = Returns p).
    { apply (guarded_encoding (_zone_state e) 0); [exact Hv |].
      right. exists (zone_id e), zone. auto. }
    revert Henc Hrun.
    generalize (Flag.and (_zone_state e) (Flag.invert ZoneState.all zone)).
    intros nzs Henc.
    generalize (if nzs =? ZoneState.none
                then Flag.and (_operating_mode e)
                       (Flag.invert OperatingMode_all OperatingMode_HEAT)
                else _operating_mode e).
    intros nom Hrun. unfold ret in Hrun.
    raised_tail Henc Hrun.
  - destruct (ZoneState.from_id (zone_id e)) as [zone | y] eqn:Hid;
      simpl in Hrun;
      [| injection Hrun as <- <-; right; left; split;
         [exact Hid | reflexivity]].
    assert (Henc : Flag.or (_zone_state e) zone <> 0 ->
                   exists p,
                     ZoneState.to_mqtt (Flag.or (_zone_state e) zone)
                     = Returns p).
    { apply (guarded_encoding (_zone_state e) 0); [exact Hv |].
      right. exists (zone_id e), zone. auto. }
    revert Henc Hrun.
    generalize (Flag.or (_zone_state e) zone).
    intros nzs Henc.
    generalize (Flag.or (_operating_mode e) OperatingMode_HEAT).
    intros nom Hrun. unfold ret in Hrun.
    raised_tail Henc Hrun.
Qed.

(** X6. The cached flags are not updated by a request, so a request that
    returned, made again before any status message arrives, publishes the
    same commands a second time (with a reliable MQTT client), stores the
    same mode and writes the state again. *)
Theorem repeated_request_republishes
    (w w1 : world) (hvac_mode : HVACMode.t) :
  reliable w ->
  async_set_hvac_mode hvac_mode w = (Returns tt, w1) ->
  exists cmds w2,
    mqtt_published w1 = mqtt_published w ++ cmds /\
    async_set_hvac_mode hvac_mode w1 = (Returns tt, w2) /\
    mqtt_published w2 = mqtt_published w1 ++ cmds /\
    self w2 = self w1 /\
    ha_states w2 = ha_states w1 ++ [self w1].
Proof.
  intros Hrel Hrun. destruct w as [e acc pub st].
  unfold reliable in Hrel. simpl in Hrel.
  unfold async_set_hvac_mode, bind, get_self, eval, raise, ret, when,
    assign, async_publish, async_write_ha_state, with_self in *.
  simpl in Hrun.
  destruct hvac_mode; simpl in Hrun; try discriminate Hrun;
    destruct (ZoneState.from_id (zone_id e)) as [zone | y] eqn:Hid;
    simpl in Hrun; try discriminate Hrun;
    match type of Hrun with
    | context [negb ((?n =? _zone_state e) || _)] =>
        remember n as nzs eqn:Enzs
    end;
    match type of Hrun with
    | context [negb (?n =? _operating_mode e)] =>
        remember n as nom eqn:Enom
    end;
    repeat match type of Hrun with
      | context [if ?b then _ else _] => destruct b eqn:?; simpl in Hrun
      | context [match ?x with Returns _ => _ | Raises _ => _ end] =>
          destruct x eqn:?; simpl in Hrun
      end;
    try discriminate Hrun; injection Hrun as <-; simpl;
    rewrite Hid; simpl; rewrite <- ?Enzs; rewrite <- ?Enom;
    repeat match goal with
      | H : ?x = _ |- context [?x] => rewrite H; simpl
      end;
    rewrite ?Hrel; simpl;
    do 2 eexists;
    (split;
     [first [ rewrite <- !app_assoc; reflexivity
            | reflexivity
            | symmetry; apply app_nil_r ]
     | split; [reflexivity | simpl; split; [| split; reflexivity]]]);
    rewrite <- ?app_assoc; simpl; rewrite ?app_nil_r; reflexivity.
Qed.

Local Transparent Z.land Z.lor Z.lnot Z.eqb.

Lemma to_mqtt_decodes (zs : Z) (p : string) :
  ZoneState.to_mqtt zs = Returns p ->
  ZoneState.from_mqtt p = Returns zs /\ ZoneState.valid zs.
Proof.
  unfold ZoneState.to_mqtt, Flag.or, ZoneState.ZONE1, ZoneState.ZONE2.
  simpl.
  destruct (Z.eqb_spec zs 1) as [-> |];
    [intro H; injection H as <-; split;
     [reflexivity | vm_compute; split; discriminate] |].
  destruct (Z.eqb_spec zs 2) as [-> |];
    [intro H; injection H as <-; split;
     [reflexivity | vm_compute; split; discriminate] |].
  destruct (Z.eqb_spec zs 3) as [-> |];
    [intro H; injection H as <-; split;
     [reflexivity | vm_compute; split; discriminate] |].
  intro H. discriminate H.
Qed.

Lemma or_contains (a b : Z) : Flag.contains b (Flag.or a b) = true.
Proof.
  apply or_absorbs_iff. unfold Flag.or.
  rewrite <- Z.lor_assoc, Z.lor_diag. reflexivity.
Qed.

(** X7. A request to heat settles once the device has echoed it: when,
    after the request, the operating-mode status decodes to the requested
    operating mode and the zone status carries the payload that encodes
    the requested zone set, the entity caches exactly the requested flags,
    its stored mode is HEAT by the guess as well, and a further request to
    heat publishes nothing. *)
Theorem echoed_request_settles
    (w : world) (zone : Z) (p_om : string) (mode zones : message) :
  ZoneState.from_id (zone_id (self w)) = Returns zone ->
  ZoneState.valid (_zone_state (self w)) ->
  reliable w ->
  let new_zone_set := Flag.or (_zone_state (self w)) zone in
  let new_operating_mode :=
    Flag.or (_operating_mode (self w)) OperatingMode_HEAT in
  (new_operating_mode <> _operating_mode (self w) ->
   OperatingMode_to_mqtt new_operating_mode = Returns p_om) ->
  topic mode = Operating_Mode_State_topic (self w) ->
  OperatingMode_from_mqtt (payload mode) = Returns new_operating_mode ->
  topic zones = Zones_State_topic (self w) ->
  ZoneState.to_mqtt new_zone_set = Returns (payload zones) ->
  let settled :=
    perform_all
      [Set_hvac_mode HVACMode.HEAT; Heating_conf_received mode;
       Heating_conf_received zones] w in
  _zone_state (self settled) = new_zone_set /\
  _operating_mode (self settled) = new_operating_mode /\
  _attr_hvac_mode (self settled) = HVACMode.HEAT /\
  async_set_hvac_mode HVACMode.HEAT settled
    = (Returns tt, committed HVACMode.HEAT [] settled).
Proof.
  intros Hid Hv Hrel nzs nom Henc Htm Hm Htz Hz settled.
  destruct (heat_run_reliable w zone p_om Hid Hv Hrel Henc)
    as [p_zs [_ [_ Hrun]]].
  destruct (to_mqtt_decodes nzs (payload zones) Hz) as [Hdec Hvalid].
  assert (Hcz : Flag.contains zone nzs = true) by apply or_contains.
  assert (Hch : Flag.contains OperatingMode_HEAT nom = true)
    by apply or_contains.
  subst settled. simpl. rewrite Hrun. simpl.
  rewrite (apply_mode_status _ mode zone nom) by (simpl; assumption).
  simpl.
  rewrite (apply_zones_status _ zones zone nzs) by (simpl; assumption).
  simpl. unfold DerivedControlState. rewrite Hcz, Hch. simpl.
  split; [reflexivity |]. split; [reflexivity |]. split; [reflexivity |].
  match goal with
  | |- async_set_hvac_mode _ ?w3 = _ =>
      destruct (heat_run_reliable w3 zone EmptyString) as [q [_ [_ Hrun3]]]
  end.
  - simpl. exact Hid.
  - simpl. exact Hvalid.
  - intros log msg. simpl. apply Hrel.
  - simpl. intro H. exfalso. apply H.
    apply or_absorbs_iff. exact Hch.
  - rewrite Hrun3. simpl.
    apply or_absorbs_iff in Hcz, Hch. rewrite Hcz, Hch, !Z.eqb_refl.
    reflexivity.
Qed.

(** ** Everything that can happen to the entity *)

Local Opaque Z.land Z.lor Z.lnot Z.eqb.

Ltac run_cases :=
  repeat (match goal with
          | |- context [match ?x with
                        | Returns _ => _
                        | Raises _ => _
                        end] => destruct x
          | |- context [if ?b then _ else _] => destruct b
          end; simpl).

Ltac list_grew :=
  first [ rewrite <- !app_assoc; reflexivity
        | reflexivity
        | symmetry; apply app_nil_r ].

Ltac pub_ok :=
  repeat first
    [ apply Forall_nil
    | apply Forall_cons;
      [ split; [reflexivity |]; split; [reflexivity |]; simpl;
        first [ left; reflexivity
              | right; left; reflexivity
              | right; right; left; reflexivity ]
      | ] ].

Ltac call_done :=
  (split; [reflexivity |]); split;
  [ eexists; split; [list_grew |]; split; [simpl; lia |];
    split; [pub_ok | simpl; auto; lia]
  | eexists; split; [list_grew | simpl; lia] ].

(** X8. Whatever happens to the entity, the MQTT client is left as it
    behaves, at most two messages are handed to it and at most one state is
    written.  Every message handed over has qos 0, is not retained and goes
    to one of the entity's three command topics.  Only the two requests
    publish: a callback for a received message, and [change_mode], publish
    nothing. *)
Theorem calls_publish_little (w : world) (c : call) :
  let w' := snd (perform c w) in
  mqtt_accepts w' = mqtt_accepts w /\
  (exists sent,
      mqtt_published w' = mqtt_published w ++ sent /\
      (length sent <= 2)%nat /\
      Forall (fun m =>
                pub_qos m = 0 /\ pub_retain m = false /\
                In (pub_topic m)
                  [pub_topic (SetOperationMode (self w) EmptyString);
                   pub_topic (SetZones (self w) EmptyString);
                   pub_topic
                     (SetHeatRequestTemperature (self w) EmptyString)])
        sent /\
      match c with
      | Set_hvac_mode _ => True
      | Set_temperature _ => (length sent <= 1)%nat
      | _ => sent = []
      end) /\
  (exists wrote,
      ha_states w' = ha_states w ++ wrote /\ (length wrote <= 1)%nat).
Proof.
  destruct w as [e acc pub st].
  destruct c as [mode ini | t | m | msg | msg | msg | msg]; simpl;
    unfold change_mode, async_set_temperature, async_set_hvac_mode,
      mode_received, current_temperature_message_received,
      target_temperature_message_received, heating_conf_message_received,
      guess_hvac_mode, bind, get_self, eval, raise, ret, when, assign,
      async_publish, async_write_ha_state, with_self;
    simpl.
  - destruct mode, ini; simpl; call_done.
  - destruct (_mode e); simpl; run_cases; call_done.
  - destruct m; simpl; run_cases; call_done.
  - run_cases; destruct (_mode e); simpl; call_done.
  - run_cases; call_done.
  - run_cases; call_done.
  - run_cases; call_done.
Qed.

Ltac kept :=
  split; [reflexivity |]; split;
  let H := fresh "H" in
  intro H; simpl in *;
  repeat match goal with
    | E : _mode _ = _ |- _ => rewrite E
    end;
  first [ reflexivity | exact H | left; reflexivity | right; reflexivity ].

Lemma perform_keeps_mode_and_bounds (w : world) (c : call) :
  let w' := snd (perform c w) in
  mqtt_accepts w' = mqtt_accepts w /\
  (advertised_bounds (self w) = bounds (_mode (self w)) ->
   advertised_bounds (self w') = bounds (_mode (self w')))
  /\
  (_attr_hvac_mode (self w) = HVACMode.HEAT
   \/ _attr_hvac_mode (self w) = HVACMode.OFF ->
   _attr_hvac_mode (self w') = HVACMode.HEAT
   \/ _attr_hvac_mode (self w') = HVACMode.OFF).
Proof.
  destruct w as [e acc pub st].
  destruct c as [mode ini | t | m | msg | msg | msg | msg]; simpl;
    unfold change_mode, async_set_temperature, async_set_hvac_mode,
      mode_received, current_temperature_message_received,
      target_temperature_message_received, heating_conf_message_received,
      guess_hvac_mode, bind, get_self, eval, raise, ret, when, assign,
      async_publish, async_write_ha_state, with_self;
    simpl.
  - destruct mode, ini; simpl; kept.
  - destruct (_mode e) eqn:Em; simpl; run_cases; kept.
  - destruct m; simpl; run_cases; kept.
  - run_cases; destruct (_mode e) eqn:Em; simpl; kept.
  - run_cases; kept.
  - run_cases; kept.
  - run_cases; kept.
Qed.

Local Transparent Z.land Z.lor Z.lnot Z.eqb.

Lemma perform_keeps_valid (w : world) (c : call) :
  ZoneState.valid (_zone_state (self w)) ->
  ZoneState.valid (_zone_state (self (snd (perform c w)))).
Proof.
  intro Hv. destruct (perform_flags w c) as [_ [_ [Hz _]]].
  destruct (Z.eq_dec (_zone_state (self (snd (perform c w))))
              (_zone_state (self w))) as [E | E].
  - rewrite E. exact Hv.
  - destruct (Hz E) as [msg [_ [_ Hdec]]].
    destruct (to_mqtt_decodes (_zone_state (self (snd (perform c w))))
                (match ZoneState.to_mqtt
                         (_zone_state (self (snd (perform c w))))
                 with Returns p => p | Raises _ => EmptyString end))
      as [_ H]; [| exact H].
    revert Hdec. generalize (_zone_state (self (snd (perform c w)))).
    intro v. unfold ZoneState.from_mqtt.
    destruct (Py.int (payload msg)) as [n |]; [| intro H; discriminate H].
    simpl.
    destruct (n =? 0); [intro H; injection H as <-; reflexivity |].
    destruct (n =? 1); [intro H; injection H as <-; reflexivity |].
    destruct (n =? 2); [intro H; injection H as <-; reflexivity |].
    intro H. discriminate H.
Qed.

(** X9. After the constructor and any history of requests, mode changes and
    received messages, whatever each of them returned or raised: the
    entity still has its zone id and topic prefix, the MQTT client is the
    one it was given, the advertised bounds are those of the active mode,
    the stored hvac mode is HEAT or OFF, and the cached zone set is a value
    of the enumeration. *)
Theorem history_invariants
    (prefix : string) (id : Z)
    (accepts : list publication -> publication -> bool) (cs : list call) :
  let w := perform_all cs (constructed prefix id accepts) in
  zone_id (self w) = id /\
  discovery_prefix (self w) = prefix /\
  mqtt_accepts w = accepts /\
  advertised_bounds (self w) = bounds (_mode (self w)) /\
  (_attr_hvac_mode (self w) = HVACMode.HEAT
   \/ _attr_hvac_mode (self w) = HVACMode.OFF) /\
  ZoneState.valid (_zone_state (self w)).
Proof.
  intro w. subst w.
  remember (constructed prefix id accepts) as w0 eqn:Hw0.
  assert (H0 : zone_id (self w0) = id /\
               discovery_prefix (self w0) = prefix /\
               mqtt_accepts w0 = accepts /\
               advertised_bounds (self w0) = bounds (_mode (self w0)) /\
               (_attr_hvac_mode (self w0) = HVACMode.HEAT
                \/ _attr_hvac_mode (self w0) = HVACMode.OFF) /\
               ZoneState.valid (_zone_state (self w0))).
  { subst w0. repeat split; auto; vm_compute; discriminate. }
  clear Hw0. revert w0 H0.
  induction cs as [| c cs IH]; intros w0 H0; simpl; [exact H0 |].
  apply IH.
  destruct H0 as [Hid [Hp [Ha [Hb [Hm Hv]]]]].
  destruct (perform_flags w0 c) as [Ez [Ep _]].
  destruct (perform_keeps_mode_and_bounds w0 c) as [Ka [Kb Km]].
  repeat split.
  - rewrite Ez. exact Hid.
  - rewrite Ep. exact Hp.
  - rewrite Ka. exact Ha.
  - apply Kb, Hb.
  - apply Km, Hm.
  - apply (perform_keeps_valid w0 c Hv).
  - apply (perform_keeps_valid w0 c Hv).
Qed.

(** ** Mode status, subscriptions and topics *)

(** X10. The mode-status callback compares the payload as text: it
    returns exactly for the payloads "0" and "1" and raises
    [AssertionError], leaving the world untouched, for anything else.
    When it returns, the active mode is the one the payload names, nothing
    was published and the cached flags and the stored hvac mode are as
    before; the world is unchanged if that mode was already active, and
    otherwise the bounds of the new mode are advertised and the state is
    written once. *)
Theorem mode_received_outcome (w : world) (msg : message) :
  (payload msg <> "0"%string -> payload msg <> "1"%string ->
   mode_received msg w = (Raises AssertionError, w))
  /\
  (forall w',
      mode_received msg w = (Returns tt, w') ->
      ((payload msg = "0"%string /\
        _mode (self w') = ZoneClimateMode.COMPENSATION)
       \/ (payload msg = "1"%string /\
           _mode (self w') = ZoneClimateMode.DIRECT)) /\
      mqtt_published w' = mqtt_published w /\
      _zone_state (self w') = _zone_state (self w) /\
      _operating_mode (self w') = _operating_mode (self w) /\
      _attr_hvac_mode (self w') = _attr_hvac_mode (self w) /\
      (_mode (self w') = _mode (self w) -> w' = w) /\
      (_mode (self w') <> _mode (self w) ->
       advertised_bounds (self w') = bounds (_mode (self w')) /\
       ha_states w' = ha_states w ++ [self w'])).
Proof.
  destruct w as [e acc pub st].
  unfold mode_received, change_mode, bind, get_self, eval, raise, ret,
    when, assign, async_write_ha_state, with_self.
  simpl. split.
  - intros H0 H1. apply String.eqb_neq in H0, H1. rewrite H0, H1.
    reflexivity.
  - intros w'.
    destruct (String.eqb_spec (payload msg) "0") as [E0 | N0];
      [| destruct (String.eqb_spec (payload msg) "1") as [E1 | N1]];
      simpl; try (intro H; discriminate H);
      destruct (_mode e) eqn:Em; simpl;
      intro H; injection H as <-; simpl; rewrite ?Em;
      repeat split; auto; try (intro X; congruence);
      try (intro X; exfalso; apply X; reflexivity);
      try (exfalso;
           match goal with H : ?a <> ?a |- _ => apply H; reflexivity end).
Qed.

Lemma prefix_neq (p a b : string) :
  String.eqb a b = false -> (p ++ a)%string <> (p ++ b)%string.
Proof.
  intros H E. apply String.eqb_eq in E.
  rewrite append_eqb_prefix in E. congruence.
Qed.

Ltac topics_apart :=
  match goal with
  | H : (?p ++ _)%string = (?p ++ _)%string |- _ =>
      exfalso; revert H; apply prefix_neq; reflexivity
  end.

(** X11. For an entity of zone 1 or 2, [async_added_to_hass] subscribes
    to five different topics, and the status callback is the one
    registered on exactly the zone-status and the operating-mode-status
    topics: a message it is called for always names one of the two flags,
    so it decodes and assigns that flag or raises, and never falls through
    the branch on the topic.  None of the entity's three command topics is
    among the subscribed topics. *)
Theorem subscriptions_are_separate (e : HeishaMonZoneClimate) :
  zone_id e = 1 \/ zone_id e = 2 ->
  NoDup (map fst (async_added_to_hass e))
  /\
  (forall t,
      In (t, Heating_conf_received) (async_added_to_hass e)
      <-> (t = Zones_State_topic e \/ t = Operating_Mode_State_topic e))
  /\
  (forall msg,
      In (topic msg, Heating_conf_received) (async_added_to_hass e) ->
      (exists v,
          (ZoneState.from_mqtt (payload msg) = Returns v /\
           status_update msg e = Returns (set_zone_state v e))
          \/ (OperatingMode_from_mqtt (payload msg) = Returns v /\
              status_update msg e = Returns (set_operating_mode v e)))
      \/ (exists x, status_update msg e = Raises x))
  /\
  (forall p,
      ~ In (pub_topic (SetOperationMode e p)) (map fst (async_added_to_hass e))
      /\ ~ In (pub_topic (SetZones e p)) (map fst (async_added_to_hass e))
      /\ ~ In (pub_topic (SetHeatRequestTemperature e p))
             (map fst (async_added_to_hass e))).
Proof.
  intro Hid.
  assert (Hsub : forall t,
             In (t, Heating_conf_received) (async_added_to_hass e) ->
             t = Zones_State_topic e \/ t = Operating_Mode_State_topic e).
  { intro t. unfold async_added_to_hass. simpl.
    intros [H | [H | [H | [H | [H | []]]]]];
      apply pair_equal_spec in H; destruct H as [H1 H2];
      try (apply (f_equal (fun f => f {| topic := EmptyString;
                                         payload := EmptyString |})) in H2;
           discriminate H2);
      subst t; [left | right]; reflexivity. }
  split; [| split; [| split]].
  - unfold async_added_to_hass.
    destruct Hid as [-> | ->]; simpl;
      repeat (constructor;
              [simpl; intro H;
               repeat (destruct H as [H | H]; [topics_apart |]);
               exact H |]);
      constructor.
  - intro t. split; [apply Hsub |].
    unfold async_added_to_hass, Zones_State_topic,
      Operating_Mode_State_topic.
    intros [-> | ->]; simpl; auto 6.
  - intros msg Hin. apply Hsub in Hin.
    pose proof (topics_differ e) as Hd.
    unfold status_update, Zones_State_topic, Operating_Mode_State_topic
      in *.
    destruct Hin as [Ht | Ht]; rewrite Ht.
    + rewrite String.eqb_refl.
      destruct (ZoneState.from_mqtt (payload msg)) as [v | x];
        [left; exists v; left; auto | right; exists x; reflexivity].
    + rewrite Hd, String.eqb_refl.
      destruct (OperatingMode_from_mqtt (payload msg)) as [v | x];
        [left; exists v; right; auto | right; exists x; reflexivity].
  - intro p. unfold async_added_to_hass, SetOperationMode, SetZones,
      SetHeatRequestTemperature.
    destruct Hid as [-> | ->]; simpl;
      repeat split; intro H;
      repeat (destruct H as [H | H]; [symmetry in H; topics_apart |]);
      exact H.
Qed.

End Further.

(** ** The text of numbers in topics and payloads *)

From Stdlib Require DecimalPos DecimalZ.

Lemma to_int_nonnil (n : Z) :
  Z.to_int n <> Decimal.Pos Decimal.Nil /\
  Z.to_int n <> Decimal.Neg Decimal.Nil.
Proof.
  destruct n; simpl; split; intro H; try discriminate H;
    injection H as H; revert H; apply DecimalPos.Unsigned.to_uint_nonnil.
Qed.

Lemma str_parses (n : Z) :
  NilZero.int_of_string (Py.str n) = Some (Z.to_int n).
Proof.
  unfold Py.str. destruct (to_int_nonnil n) as [H1 H2].
  apply NilZero.isi; assumption.
Qed.

Lemma str_inj (a b : Z) : Py.str a = Py.str b -> a = b.
Proof.
  intro H. apply DecimalZ.to_int_inj.
  apply (f_equal NilZero.int_of_string) in H.
  rewrite !str_parses in H. injection H as H. exact H.
Qed.

Lemma length_append (s t : string) :
  String.length (s ++ t) = (String.length s + String.length t)%nat.
Proof. induction s as [| c s IH]; simpl; [reflexivity | now rewrite IH]. Qed.

Lemma append_cancel_r (s1 s2 t : string) :
  (s1 ++ t)%string = (s2 ++ t)%string -> s1 = s2.
Proof.
  revert s2. induction s1 as [| c s1 IH]; intros [| d s2] H; simpl in H.
  - reflexivity.
  - apply (f_equal String.length) in H. simpl in H.
    rewrite length_append in H. lia.
  - apply (f_equal String.length) in H. simpl in H.
    rewrite length_append in H. lia.
  - injection H as -> H. f_equal. apply IH, H.
Qed.

Lemma append_cancel_l (p a b : string) :
  (p ++ a)%string = (p ++ b)%string -> a = b.
Proof.
  intro H. apply String.eqb_eq. rewrite <- (append_eqb_prefix p).
  apply String.eqb_eq, H.
Qed.

(** X12. A set-temperature command goes to its own zone's topic.  On a
    reliable MQTT client a call of [async_set_temperature] returns having
    handed over exactly one message, the one on
    [commands/SetZ<id>HeatRequestTemperature] for the entity's own zone
    id; and for two entities on the same topic prefix the messages of two
    such calls are on the same topic exactly when the two entities have
    the same zone id, whatever the two values are.  So a command for one
    zone never lands on the topic of another. *)
Theorem temperature_command_identifies
    {PF : PyFloat} (w1 w2 : world) (t1 t2 : option Z) :
  discovery_prefix (self w1) = discovery_prefix (self w2) ->
  reliable w1 ->
  reliable w2 ->
  exists m1 m2,
    async_set_temperature t1 w1 = (Returns tt, handed_over m1 w1) /\
    async_set_temperature t2 w2 = (Returns tt, handed_over m2 w2) /\
    m1 = SetHeatRequestTemperature (self w1) (Py.str_opt t1) /\
    m2 = SetHeatRequestTemperature (self w2) (Py.str_opt t2) /\
    (pub_topic m1 = pub_topic m2
     <-> zone_id (self w1) = zone_id (self w2)).
Proof.
  intros Hp Hr1 Hr2.
  destruct w1 as [e1 acc1 pub1 st1]. destruct w2 as [e2 acc2 pub2 st2].
  unfold reliable in Hr1, Hr2. simpl in Hp, Hr1, Hr2.
  unfold async_set_temperature, bind, get_self, ret, async_publish,
    handed_over.
  simpl.
  destruct (_mode e1), (_mode e2); simpl; rewrite Hr1, Hr2;
    do 2 eexists; (split; [reflexivity |]); (split; [reflexivity |]);
    (split; [reflexivity |]); (split; [reflexivity |]);
    simpl; rewrite Hp; (split; [| intros ->; reflexivity]);
    intro H; apply append_cancel_l in H;
    change ("commands/SetZ" ++ (Py.str (zone_id e1)
                                  ++ "HeatRequestTemperature")
            = "commands/SetZ" ++ (Py.str (zone_id e2)
                                    ++ "HeatRequestTemperature"))%string
      in H;
    apply append_cancel_l, append_cancel_r, str_inj in H; exact H.
Qed.
(** ** The two zone entities of one heat pump *)

Section TwoZones.

Context {I : PyInt} {OM : OperatingModeEnum} {PF : PyFloat}.

Lemma status_step (w : world) (msg : message) (zone : Z) :
  ZoneState.from_id (zone_id (self w)) = Returns zone ->
  self (snd (heating_conf_message_received msg w))
    = match status_update msg (self w) with
      | Returns e' =>
          set_attr_hvac_mode
            (hvac_mode_of
               (DerivedControlState zone (_zone_state e')
                  (_operating_mode e'))) e'
      | Raises _ => self w
      end.
Proof.
  intro Hid. rewrite heating_conf_run.
  destruct (status_update msg (self w)) as [e' | x] eqn:Hup;
    [| reflexivity].
  destruct (status_update_ids msg (self w) e' Hup) as [Hz _].
  rewrite Hz, Hid. reflexivity.
Qed.

Lemma status_update_in_step (msg : message) (a b : HeishaMonZoneClimate) :
  in_step a b ->
  match status_update msg a, status_update msg b with
  | Returns a', Returns b' =>
      in_step a' b' /\ zone_id a' = zone_id a /\ zone_id b' = zone_id b
  | Raises _, Raises _ => True
  | _, _ => False
  end.
Proof.
  intros [Hp [Hz Ho]]. unfold status_update, in_step. rewrite Hp.
  destruct (String.eqb (topic msg) (discovery_prefix b ++ "main/Zones_State"));
    [destruct (ZoneState.from_mqtt (payload msg))
    | destruct (String.eqb (topic msg)
                  (discovery_prefix b ++ "main/Operating_Mode_State"));
      [destruct (OperatingMode_from_mqtt (payload msg)) |]];
    simpl; auto.
Qed.

(** X13. The two entities that [async_setup_entry] creates, one for zone
    1 and one for zone 2, each keep their own copy of the device's flags.
    Fed the same status messages in the same order, whatever the payloads,
    the two copies agree after every message, and each entity's stored
    mode is the one guessed for its own zone from those flags. *)
Theorem zones_stay_in_step
    (prefix : string) (accepts : list publication -> publication -> bool)
    (msgs : list message) :
  let statuses := map Heating_conf_received msgs in
  exists w1 w2,
    async_setup_entry prefix accepts = [w1; w2] /\
    zone_id (self w1) = 1 /\ zone_id (self w2) = 2 /\
    in_step (self (perform_all statuses w1)) (self (perform_all statuses w2))
    /\ mode_is_derived ZoneState.ZONE1 (self (perform_all statuses w1))
    /\ mode_is_derived ZoneState.ZONE2 (self (perform_all statuses w2)).
Proof.
  intro statuses. subst statuses.
  do 2 eexists. split; [reflexivity |].
  split; [reflexivity |]. split; [reflexivity |].
  assert (Hstep : forall a b : world,
             zone_id (self a) = 1 -> zone_id (self b) = 2 ->
             in_step (self a) (self b) ->
             mode_is_derived ZoneState.ZONE1 (self a) ->
             mode_is_derived ZoneState.ZONE2 (self b) ->
             in_step (self (perform_all (map Heating_conf_received msgs) a))
               (self (perform_all (map Heating_conf_received msgs) b))
             /\ mode_is_derived ZoneState.ZONE1
                  (self (perform_all (map Heating_conf_received msgs) a))
             /\ mode_is_derived ZoneState.ZONE2
                  (self (perform_all (map Heating_conf_received msgs) b))).
  { induction msgs as [| msg msgs IH]; intros a b Ha Hb Hs Da Db; simpl;
      [auto |].
    assert (Hida : ZoneState.from_id (zone_id (self a))
                   = Returns ZoneState.ZONE1) by (rewrite Ha; reflexivity).
    assert (Hidb : ZoneState.from_id (zone_id (self b))
                   = Returns ZoneState.ZONE2) by (rewrite Hb; reflexivity).
    pose proof (status_step a msg _ Hida) as Sa.
    pose proof (status_step b msg _ Hidb) as Sb.
    pose proof (status_update_in_step msg (self a) (self b) Hs) as Hu.
    destruct (status_update msg (self a)) as [a' | xa];
      destruct (status_update msg (self b)) as [b' | xb];
      try contradiction.
    - destruct Hu as [[Hp [Hz Ho]] [Za Zb]].
      apply IH; rewrite ?Sa, ?Sb; simpl; try congruence.
      + repeat split; assumption.
      + reflexivity.
      + reflexivity.
    - apply IH; rewrite ?Sa, ?Sb; assumption. }
  apply Hstep; try reflexivity.
  repeat split.
Qed.

End TwoZones.

(** ** The further statements at work on the sample installation *)

Lemma zone_state_codec_domains_witness :
  @ZoneState.from_mqtt plain_int (payload zones_state_padded_1)
    = Returns ZoneState.ZONE2 /\
  round_trips_back (@ZoneState.from_mqtt plain_int) ZoneState.to_mqtt
    ZoneState.ZONE2.
Proof.
  assert (H : @ZoneState.from_mqtt plain_int (payload zones_state_padded_1)
              = Returns ZoneState.ZONE2) by reflexivity.
  split; [exact H |].
  exact (proj2 (proj2 (proj1 (proj2 (proj2 (proj2
           (@zone_state_codec_domains plain_int))))
                         (payload zones_state_padded_1) ZoneState.ZONE2 H))).
Defined.

Lemma from_id_flags_witness :
  ZoneState.from_id 1 = Returns ZoneState.ZONE1 /\
  ZoneState.from_id 2 = Returns ZoneState.ZONE2 /\
  Flag.and ZoneState.ZONE1 ZoneState.ZONE2 = ZoneState.none /\
  Flag.or ZoneState.ZONE1 ZoneState.ZONE2 = ZoneState.all.
Proof.
  assert (H1 : ZoneState.from_id 1 = Returns ZoneState.ZONE1) by reflexivity.
  assert (H2 : ZoneState.from_id 2 = Returns ZoneState.ZONE2) by reflexivity.
  assert (Hne : 1 <> 2) by discriminate.
  split; [exact H1 |]. split; [exact H2 |].
  exact (proj2 (proj2 (proj2 (proj2 (proj2 (from_id_flags 1 2))
                                ZoneState.ZONE1 ZoneState.ZONE2 H1 H2)))
           Hne).
Defined.

Lemma status_message_idempotent_witness :
  let w := sample_world
             (sample_entity 1 1 1 HVACMode.HEAT ZoneClimateMode.DIRECT)
             accept_all in
  exists w1,
    @heating_conf_message_received plain_int single_flag text_float
      zones_state_2 w
      = (Returns tt, w1) /\
    @heating_conf_message_received plain_int single_flag text_float
      zones_state_2 w1
      = (Returns tt, written w1).
Proof.
  intro w. eexists.
  assert (H : @heating_conf_message_received plain_int single_flag text_float
                zones_state_2 w
              = (Returns tt,
                 snd (@heating_conf_message_received plain_int single_flag
                        text_float
                        zones_state_2 w))) by reflexivity.
  split; [exact H |].
  exact (@status_message_idempotent plain_int single_flag text_float w _
           zones_state_2 H).
Defined.

Lemma status_messages_commute_witness :
  let w := sample_world
             (sample_entity 1 0 0 HVACMode.OFF ZoneClimateMode.DIRECT)
             accept_all in
  self (@perform_all plain_int single_flag text_float
          [Heating_conf_received zones_state_0;
           Heating_conf_received operating_mode_state_1] w)
  = self (@perform_all plain_int single_flag text_float
            [Heating_conf_received operating_mode_state_1;
             Heating_conf_received zones_state_0] w).
Proof.
  intro w.
  exact (proj1 (@status_messages_commute plain_int single_flag text_float w
                  zones_state_0 operating_mode_state_1
                  ZoneState.ZONE1 ZoneState.ZONE1 1
                  eq_refl eq_refl eq_refl eq_refl eq_refl)).
Defined.

Lemma request_exceptions_witness :
  let w := sample_world
             (sample_entity 1 0 0 HVACMode.OFF ZoneClimateMode.DIRECT)
             refuse_zones in
  let w' := handed_over (SetOperationMode (self w) "1") w in
  ZoneState.valid (_zone_state (self w)) /\
  @async_set_hvac_mode single_flag text_float HVACMode.HEAT w
    = (Raises TransportError, w') /\
  self w' = self w.
Proof.
  intros w w'.
  assert (Hv : ZoneState.valid (_zone_state (self w)))
    by (vm_compute; split; discriminate).
  assert (Hrun : @async_set_hvac_mode single_flag text_float HVACMode.HEAT w
                 = (Raises TransportError, w')) by reflexivity.
  split; [exact Hv |]. split; [exact Hrun |].
  destruct (@request_exceptions single_flag text_float w w' HVACMode.HEAT
              TransportError Hv Hrun)
    as [[H _] | [[H _] | [[om [_ H]] | [_ H]]]].
  - exfalso. apply H. reflexivity.
  - reflexivity.
  - reflexivity.
  - exact H.
Defined.

Lemma repeated_request_republishes_witness :
  let w := sample_world
             (sample_entity 1 0 0 HVACMode.OFF ZoneClimateMode.DIRECT)
             accept_all in
  reliable w /\
  exists w1 w2 cmds,
    @async_set_hvac_mode single_flag text_float HVACMode.HEAT w
      = (Returns tt, w1) /\
    @async_set_hvac_mode single_flag text_float HVACMode.HEAT w1
      = (Returns tt, w2) /\
    mqtt_published w1 = cmds /\
    mqtt_published w2 = cmds ++ cmds.
Proof.
  intro w.
  assert (Hrel : reliable w) by (intros log msg; reflexivity).
  split; [exact Hrel |].
  assert (Hrun : @async_set_hvac_mode single_flag text_float HVACMode.HEAT w
                 = (Returns tt,
                    snd (@async_set_hvac_mode single_flag text_float
                           HVACMode.HEAT w))) by reflexivity.
  destruct (@repeated_request_republishes single_flag text_float w _
              HVACMode.HEAT Hrel Hrun)
    as [cmds [w2 [H1 [H2 [H3 _]]]]].
  eexists. exists w2, cmds.
  split; [exact Hrun |]. split; [exact H2 |].
  split; [exact H1 |]. rewrite H3, H1. reflexivity.
Defined.

Lemma echoed_request_settles_witness :
  let w := sample_world
             (sample_entity 1 0 0 HVACMode.OFF ZoneClimateMode.DIRECT)
             accept_all in
  let settled :=
    @perform_all plain_int single_flag text_float
      [Set_hvac_mode HVACMode.HEAT;
       Heating_conf_received operating_mode_state_1;
       Heating_conf_received zones_state_0] w in
  reliable w /\
  @async_set_hvac_mode single_flag text_float HVACMode.HEAT settled
    = (Returns tt, committed HVACMode.HEAT [] settled).
Proof.
  intros w settled.
  assert (Hrel : reliable w) by (intros log msg; reflexivity).
  assert (Hv : ZoneState.valid (_zone_state (self w)))
    by (vm_compute; split; discriminate).
  split; [exact Hrel |].
  exact (proj2 (proj2 (proj2
           (@echoed_request_settles plain_int single_flag text_float w
              ZoneState.ZONE1 "1" operating_mode_state_1 zones_state_0
              eq_refl Hv Hrel (fun _ => eq_refl)
              eq_refl eq_refl eq_refl eq_refl)))).
Defined.

Lemma mode_received_outcome_witness :
  let w := sample_world
             (sample_entity 1 0 0 HVACMode.OFF ZoneClimateMode.COMPENSATION)
             accept_all in
  payload heating_mode_padded_1 <> "0"%string /\
  payload heating_mode_padded_1 <> "1"%string /\
  @mode_received text_float heating_mode_padded_1 w
    = (Raises AssertionError, w).
Proof.
  intro w.
  assert (H0 : payload heating_mode_padded_1 <> "0"%string) by discriminate.
  assert (H1 : payload heating_mode_padded_1 <> "1"%string) by discriminate.
  split; [exact H0 |]. split; [exact H1 |].
  exact (proj1 (@mode_received_outcome text_float w heating_mode_padded_1)
           H0 H1).
Defined.

Lemma subscriptions_are_separate_witness :
  let e := sample_entity 2 0 0 HVACMode.OFF ZoneClimateMode.DIRECT in
  (zone_id e = 1 \/ zone_id e = 2) /\
  NoDup (map fst (@async_added_to_hass text_float e)).
Proof.
  intro e.
  assert (Hid : zone_id e = 1 \/ zone_id e = 2) by (right; reflexivity).
  split; [exact Hid |].
  exact (proj1 (@subscriptions_are_separate plain_int single_flag text_float
                  e Hid)).
Defined.

Lemma temperature_command_identifies_witness :
  let w1 := sample_world
              (sample_entity 1 0 0 HVACMode.OFF ZoneClimateMode.DIRECT)
              accept_all in
  let w2 := sample_world
              (sample_entity 2 0 0 HVACMode.OFF ZoneClimateMode.DIRECT)
              accept_all in
  discovery_prefix (self w1) = discovery_prefix (self w2) /\
  reliable w1 /\ reliable w2 /\
  exists m1 m2,
    @async_set_temperature text_float (Some 21) w1
      = (Returns tt, handed_over m1 w1) /\
    @async_set_temperature text_float (Some 21) w2
      = (Returns tt, handed_over m2 w2) /\
    pub_topic m1
      = "panasonic_heat_pump/commands/SetZ1HeatRequestTemperature"%string /\
    pub_topic m2
      = "panasonic_heat_pump/commands/SetZ2HeatRequestTemperature"%string /\
    pub_topic m1 <> pub_topic m2.
Proof.
  intros w1 w2.
  assert (Hp : discovery_prefix (self w1) = discovery_prefix (self w2))
    by reflexivity.
  assert (Hr1 : reliable w1) by (intros log msg; reflexivity).
  assert (Hr2 : reliable w2) by (intros log msg; reflexivity).
  split; [exact Hp |]. split; [exact Hr1 |]. split; [exact Hr2 |].
  destruct (@temperature_command_identifies text_float w1 w2
              (Some 21) (Some 21) Hp Hr1 Hr2)
    as [m1 [m2 [H1 [H2 [E1 [E2 H3]]]]]].
  exists m1, m2. split; [exact H1 |]. split; [exact H2 |].
  split; [rewrite E1; reflexivity |].
  split; [rewrite E2; reflexivity |].
  intro H. apply H3 in H. discriminate H.
Defined.
